(** * solar-cast: forecast synchronisation and performance estimation

    A shallow embedding of [main.py]: the four tables, the provider
    client [get_solcast_forecast], the reconcile pass
    [update_forecast_data], the estimation pass
    [calculate_plant_performance] and the two read endpoints
    [get_forecast] and [get_performance].

    Conventions of the embedding.
    - Python floats are idealised as real numbers ([R]); [math.sin],
      [math.cos] and [math.pi] are [sin], [cos] and [PI].  Rounding is
      not modelled.
    - A table is the list of its rows in primary-key order.  A query
      issued through the session sees the rows the session has added or
      changed (SQLAlchemy flushes before it queries), [db.session.add]
      appends a row with a fresh primary key, [db.session.commit] makes
      the session's rows the durable ones.
    - A stored [DateTime] is the number of microseconds since an epoch,
      a [Date] the number of days since that epoch.
    - The provider's JSON is modelled as far as the code looks into it:
      a body is JSON or not, the object has a [forecasts] entry or not,
      an entry of the list has each of its six keys or not; a key that
      is present holds a value of the type the wire contract gives it.
    - The network is the sequence of the outcomes of the HTTP requests
      still to come; a pass makes one request per plant, in the order
      of the plant directory.
    - An exception leaves the session as it was when it was raised and
      the durable rows untouched: only [db.session.commit] changes them.
    - Routing, CORS and logging set-up are not modelled; a token is
      known by what [create_access_token] makes of an identity. *)

From Stdlib Require Import Reals Lra Lia ZArith List String Bool.
From Stdlib Require Import Sorted Permutation.
Import ListNotations.

Open Scope string_scope.
Open Scope list_scope.
Open Scope Z_scope.

(** ** Data model *)

Definition datetime := Z.
Definition date := Z.

Definition usec_per_day : Z := 86400000000.

(** A [date] used where a [datetime] is expected: midnight of that day. *)
Definition midnight (d : date) : datetime := d * usec_per_day.

(** [d + timedelta(days=n)] *)
Definition add_days (d : date) (n : Z) : date := d + n.

Module User.
Record t := mk
  { id : Z;
    username : string;
    password : string }.
End User.

Module Plant.
Record t := mk
  { id : Z;
    name : string;
    user_id : Z;
    latitude : R;
    longitude : R;
    capacity : R;
    size : R;
    panel_angle : R;
    panel_azimuth : R }.
End Plant.

Module Forecast.
Record t := mk
  { id : Z;
    plant_id : Z;
    timestamp : datetime;
    ghi : R;
    dni : R;
    dhi : R;
    air_temp : R;
    cloud_opacity : R }.

(** Attribute assignments [row.ghi = v], ... on a loaded row. *)
Definition set_ghi (v : R) (f : t) : t :=
  mk (id f) (plant_id f) (timestamp f) v (dni f) (dhi f) (air_temp f) (cloud_opacity f).
Definition set_dni (v : R) (f : t) : t :=
  mk (id f) (plant_id f) (timestamp f) (ghi f) v (dhi f) (air_temp f) (cloud_opacity f).
Definition set_dhi (v : R) (f : t) : t :=
  mk (id f) (plant_id f) (timestamp f) (ghi f) (dni f) v (air_temp f) (cloud_opacity f).
Definition set_air_temp (v : R) (f : t) : t :=
  mk (id f) (plant_id f) (timestamp f) (ghi f) (dni f) (dhi f) v (cloud_opacity f).
Definition set_cloud_opacity (v : R) (f : t) : t :=
  mk (id f) (plant_id f) (timestamp f) (ghi f) (dni f) (dhi f) (air_temp f) v.
End Forecast.

Module PlantPerformance.
Record t := mk
  { id : Z;
    plant_id : Z;
    date : Z;
    expected_output : R }.
End PlantPerformance.

(** One entry of the provider's [forecasts] list, a JSON object:
    [None] is an absent key. *)
Module Point.
Record t := mk
  { period_end : option string;
    ghi : option R;
    dni : option R;
    dhi : option R;
    air_temp : option R;
    cloud_opacity : option R }.
End Point.

Record database := mkdb
  { users : list User.t;
    plants : list Plant.t;
    forecasts : list Forecast.t;
    performances : list PlantPerformance.t }.

Definition with_forecasts (fs : list Forecast.t) (d : database) : database :=
  mkdb (users d) (plants d) fs (performances d).

Definition with_performances (ps : list PlantPerformance.t) (d : database) : database :=
  mkdb (users d) (plants d) (forecasts d) ps.

(** The next primary key of a table whose keys are [ids]. *)
Definition next_id (ids : list Z) : Z := 1 + fold_right Z.max 0 ids.

(** ** The output estimator (the arithmetic of [calculate_plant_performance]) *)

Section Estimator.
Local Open Scope R_scope.

(** [math.radians] *)
Definition radians (x : R) : R := x * (PI / 180).

(** Python's [sum]: starts from 0 and adds from the left. *)
Definition sum (l : list R) : R := fold_left Rplus l 0.

(** The generator expression under [sum], for one forecast row. *)
Definition energy_term (plant : Plant.t) (f : Forecast.t) : R :=
  (Forecast.dni f * Rabs (sin (radians (Plant.panel_angle plant)))
     * cos (radians (Plant.panel_azimuth plant))
   + Forecast.dhi f * (1 + cos (radians (Plant.panel_angle plant))) / 2
   + Forecast.ghi f * 0.2 * (1 - cos (radians (Plant.panel_angle plant))) / 2)
  * Plant.size plant * 0.15.

Definition total_energy (plant : Plant.t) (fs : list Forecast.t) : R :=
  sum (map (energy_term plant) fs) / 1000.



End Estimator.

(** The day window of the estimation query:
    [timestamp >= today] and [timestamp < today + timedelta(days=1)]. *)
Definition in_day (today : date) (ts : datetime) : bool :=
  (midnight today <=? ts) && (ts <? midnight (add_days today 1)).

Definition day_forecasts (plant : Plant.t) (today : date)
    (fs : list Forecast.t) : list Forecast.t :=
  filter (fun f => (Forecast.plant_id f =? Plant.id plant)
                   && in_day today (Forecast.timestamp f)) fs.

(** ** Exceptions, the outside world, and the monad the passes run in *)

Inductive exn :=
| KeyError (key : string)
| ValueError
| JSONDecodeError
| RequestException.

Inductive result (A : Type) :=
| Ok (a : A)
| Raise (e : exn).
Arguments Ok {A} a.
Arguments Raise {A} e.

(** What [response.json()] can be. *)
Inductive json_body :=
| NotJSON
| JSONObject (forecasts_entry : option (list Point.t)).

(** What [requests.get] can do. *)
Inductive http_outcome :=
| ConnectionFailed
| HttpResponse (status_code : Z) (body : json_body).

Record world := mkworld
  { committed : database;
    session : database;
    error_log : list Z;
    network : nat -> http_outcome }.

Definition M (A : Type) : Type := world -> result A * world.

Definition ret {A} (a : A) : M A := fun w => (Ok a, w).

Definition raise {A} (e : exn) : M A := fun w => (Raise e, w).

Definition bind {A B} (m : M A) (k : A -> M B) : M B :=
  fun w => match m w with
           | (Ok a, w') => k a w'
           | (Raise e, w') => (Raise e, w')
           end.

Notation "x <- m ;; k" := (bind m (fun x => k))
  (at level 61, m at next level, right associativity).
Notation "m ;; k" := (bind m (fun _ => k))
  (at level 61, right associativity).

(** A [for] loop whose body may raise. *)
Fixpoint for_each {A} (body : A -> M unit) (l : list A) : M unit :=
  match l with
  | [] => ret tt
  | x :: l' => body x ;; for_each body l'
  end.

(** [d[key]] on a JSON object. *)
Definition getitem {A} (key : string) (entry : option A) : M A :=
  match entry with
  | Some v => ret v
  | None => raise (KeyError key)
  end.

Definition on_session (f : database -> database) : M unit :=
  fun w => (Ok tt, mkworld (committed w) (f (session w)) (error_log w) (network w)).

Definition db_session_commit : M unit :=
  fun w => (Ok tt, mkworld (session w) (session w) (error_log w) (network w)).

(** [app.logger.error] of a status code. *)
Definition logger_error (status_code : Z) : M unit :=
  fun w => (Ok tt, mkworld (committed w) (session w)
                           (error_log w ++ [status_code]) (network w)).

(** [requests.get]: the next outcome the network holds. *)
Definition requests_get : M (Z * json_body) :=
  fun w =>
    let w' := mkworld (committed w) (session w) (error_log w)
                      (fun k => network w (S k)) in
    match network w 0%nat with
    | ConnectionFailed => (Raise RequestException, w')
    | HttpResponse status_code body => (Ok (status_code, body), w')
    end.

Definition response_json (body : json_body) : M (option (list Point.t)) :=
  match body with
  | NotJSON => raise JSONDecodeError
  | JSONObject entry => ret entry
  end.

(** The URL is built from the coordinates and the API key; in the model
    the network answers by the order of the requests, so the
    coordinates do not show in the body. *)
Definition get_solcast_forecast (latitude longitude : R)
    : M (option (list Point.t)) :=
  response <- requests_get ;;
  if fst response =? 200
  then (obj <- response_json (snd response) ;;
        forecasts_entry <- getitem "forecasts" obj ;;
        ret (Some forecasts_entry))
  else (logger_error (fst response) ;; ret None).

(** ** Queries *)

Fixpoint find_index {A} (p : A -> bool) (l : list A) : option nat :=
  match l with
  | [] => None
  | x :: l' => if p x then Some 0%nat else option_map S (find_index p l')
  end.

Fixpoint modify_nth {A} (i : nat) (g : A -> A) (l : list A) : list A :=
  match l, i with
  | [], _ => []
  | x :: l', O => g x :: l'
  | x :: l', S j => x :: modify_nth j g l'
  end.

Definition Plant_query_all : M (list Plant.t) :=
  fun w => (Ok (plants (session w)), w).

(** [filter_by(plant_id=.., timestamp=..)] *)
Definition same_key (plant_id : Z) (ts : datetime) (f : Forecast.t) : bool :=
  (Forecast.plant_id f =? plant_id) && (Forecast.timestamp f =? ts).

(** [Forecast.query.filter_by(...).first()]: the loaded row is named by
    its position in the table. *)
Definition Forecast_query_first (plant_id : Z) (ts : datetime) : M (option nat) :=
  fun w => (Ok (find_index (same_key plant_id ts) (forecasts (session w))), w).

Definition setattr (i : nat) (g : Forecast.t -> Forecast.t) : M unit :=
  on_session (fun d => with_forecasts (modify_nth i g (forecasts d)) d).

Definition db_session_add_forecast (plant_id : Z) (ts : datetime)
    (ghi dni dhi air_temp cloud_opacity : R) : M unit :=
  on_session (fun d =>
    with_forecasts
      (forecasts d ++
       [Forecast.mk (next_id (map Forecast.id (forecasts d)))
                    plant_id ts ghi dni dhi air_temp cloud_opacity]) d).

Definition Forecast_query_day (plant : Plant.t) (today : date)
    : M (list Forecast.t) :=
  fun w => (Ok (day_forecasts plant today (forecasts (session w))), w).

Definition db_session_add_performance (plant_id : Z) (day : date)
    (expected_output : R) : M unit :=
  on_session (fun d =>
    with_performances
      (performances d ++
       [PlantPerformance.mk (next_id (map PlantPerformance.id (performances d)))
                            plant_id day expected_output]) d).

(** ** The two passes *)

Section Passes.

(** [datetime.fromisoformat], as the stored value of the parsed
    timestamp; [None] when it raises [ValueError]. *)
Variable fromisoformat : string -> option datetime.

Definition parse_timestamp (s : string) : M datetime :=
  match fromisoformat s with
  | Some ts => ret ts
  | None => raise ValueError
  end.

(** The body of the inner loop of [update_forecast_data]. *)
Definition reconcile_point (plant : Plant.t) (data : Point.t) : M unit :=
  period_end <- getitem "period_end" (Point.period_end data) ;;
  ts <- parse_timestamp period_end ;;
  existing_forecast <- Forecast_query_first (Plant.id plant) ts ;;
  match existing_forecast with
  | Some i =>
      ghi <- getitem "ghi" (Point.ghi data) ;;
      setattr i (Forecast.set_ghi ghi) ;;
      dni <- getitem "dni" (Point.dni data) ;;
      setattr i (Forecast.set_dni dni) ;;
      dhi <- getitem "dhi" (Point.dhi data) ;;
      setattr i (Forecast.set_dhi dhi) ;;
      air_temp <- getitem "air_temp" (Point.air_temp data) ;;
      setattr i (Forecast.set_air_temp air_temp) ;;
      cloud_opacity <- getitem "cloud_opacity" (Point.cloud_opacity data) ;;
      setattr i (Forecast.set_cloud_opacity cloud_opacity)
  | None =>
      period_end' <- getitem "period_end" (Point.period_end data) ;;
      ts' <- parse_timestamp period_end' ;;
      ghi <- getitem "ghi" (Point.ghi data) ;;
      dni <- getitem "dni" (Point.dni data) ;;
      dhi <- getitem "dhi" (Point.dhi data) ;;
      air_temp <- getitem "air_temp" (Point.air_temp data) ;;
      cloud_opacity <- getitem "cloud_opacity" (Point.cloud_opacity data) ;;
      db_session_add_forecast (Plant.id plant) ts'
                              ghi dni dhi air_temp cloud_opacity
  end.

(** The body of the outer loop: [if forecast_data:] is false on [None]
    and on the empty list. *)
Definition reconcile_plant (plant : Plant.t) : M unit :=
  forecast_data <- get_solcast_forecast (Plant.latitude plant)
                                        (Plant.longitude plant) ;;
  match forecast_data with
  | Some (data :: rest) => for_each (reconcile_point plant) (data :: rest)
  | Some [] => ret tt
  | None => ret tt
  end.

Definition update_forecast_data : M unit :=
  plants <- Plant_query_all ;;
  for_each reconcile_plant plants ;;
  db_session_commit.

End Passes.

(** The body of the loop of [calculate_plant_performance]. *)
Definition estimate_plant (today : date) (plant : Plant.t) : M unit :=
  forecasts <- Forecast_query_day plant today ;;
  db_session_add_performance (Plant.id plant) today
                             (total_energy plant forecasts).

(** [today] is [datetime.now().date()]. *)
Definition calculate_plant_performance (today : date) : M unit :=
  plants <- Plant_query_all ;;
  for_each (estimate_plant today) plants ;;
  db_session_commit.

(** One call of a pass: it starts from a session that holds the
    durable rows, and ends with an outcome, the durable rows and the
    error log. *)
Definition start (net : nat -> http_outcome) (db : database) : world :=
  mkworld db db [] net.

Definition run {A} (net : nat -> http_outcome) (m : M A) (db : database)
    : result A * database :=
  (fst (m (start net db)), committed (snd (m (start net db)))).

Definition logged {A} (net : nat -> http_outcome) (m : M A) (db : database)
    : list Z :=
  error_log (snd (m (start net db))).

(** ** The read endpoints *)

Module ForecastItem.
Record t := mk
  { timestamp : string;
    ghi : R;
    dni : R;
    dhi : R;
    air_temp : R;
    cloud_opacity : R }.
End ForecastItem.

Module PerformanceItem.
Record t := mk
  { date : string;
    expected_output : R }.
End PerformanceItem.

(** [jsonify(...), status] *)
Inductive response :=
| ForecastData (status : Z) (items : list ForecastItem.t)
| PerformanceData (status : Z) (items : list PerformanceItem.t)
| Message (status : Z) (msg : string).

(** [order_by]: a stable insertion sort; [before x y] says that [x] may
    stand in front of [y]. *)
Fixpoint insert_by {A} (before : A -> A -> bool) (x : A) (l : list A) : list A :=
  match l with
  | [] => [x]
  | y :: l' => if before x y then x :: y :: l' else y :: insert_by before x l'
  end.

Definition order_by {A} (before : A -> A -> bool) (l : list A) : list A :=
  fold_right (insert_by before) [] l.

Definition ascending {A} (key : A -> Z) (x y : A) : bool := key x <=? key y.
Definition descending {A} (key : A -> Z) (x y : A) : bool := key y <=? key x.

(** [User.query.filter_by(username=..).first()] *)
Definition User_query_first (username : string) (db : database) : option User.t :=
  find (fun u => String.eqb (User.username u) username) (users db).

(** [Plant.query.filter_by(user_id=.., name=..).first()] *)
Definition Plant_query_first (user_id : Z) (name : string) (db : database)
    : option Plant.t :=
  find (fun p => (Plant.user_id p =? user_id) && String.eqb (Plant.name p) name)
       (plants db).

Section Endpoints.

(** [datetime.isoformat] and [date.isoformat] *)
Variable datetime_isoformat : datetime -> string.
Variable date_isoformat : date -> string.

Definition forecast_item (f : Forecast.t) : ForecastItem.t :=
  ForecastItem.mk (datetime_isoformat (Forecast.timestamp f))
                  (Forecast.ghi f) (Forecast.dni f) (Forecast.dhi f)
                  (Forecast.air_temp f) (Forecast.cloud_opacity f).

Definition performance_item (p : PlantPerformance.t) : PerformanceItem.t :=
  PerformanceItem.mk (date_isoformat (PlantPerformance.date p))
                     (PlantPerformance.expected_output p).

(** [current_user] is [get_jwt_identity()], the identity of a token
    that [jwt_required] has accepted. *)
Definition get_forecast (current_user plant_name : string) (db : database)
    : response :=
  match User_query_first current_user db with
  | None => Message 404 "User not found"
  | Some user =>
      match Plant_query_first (User.id user) plant_name db with
      | None => Message 404 "Plant not found"
      | Some plant =>
          let forecasts :=
            order_by (ascending Forecast.timestamp)
              (filter (fun f => Forecast.plant_id f =? Plant.id plant)
                      (forecasts db)) in
          ForecastData 200 (map forecast_item forecasts)
      end
  end.

Definition get_performance (current_user plant_name : string) (db : database)
    : response :=
  match User_query_first current_user db with
  | None => Message 404 "User not found"
  | Some user =>
      match Plant_query_first (User.id user) plant_name db with
      | None => Message 404 "Plant not found"
      | Some plant =>
          let performances :=
            firstn 30
              (order_by (descending PlantPerformance.date)
                 (filter (fun p => PlantPerformance.plant_id p =? Plant.id plant)
                         (performances db))) in
          PerformanceData 200 (map performance_item performances)
      end
  end.

End Endpoints.

(** ** The login endpoint *)

(** [request.json], as far as [login] looks into it: [None] is an
    absent key, for which [.get(key, None)] gives [None]. *)
Module Credentials.
Record t := mk
  { username : option string;
    password : option string }.
End Credentials.

(** [jsonify(access_token=...), 200] or [jsonify({"msg": ...}), 401] *)
Inductive login_response (token : Type) :=
| AccessToken (status : Z) (access_token : token)
| LoginMessage (status : Z) (msg : string).
Arguments AccessToken {token} status access_token.
Arguments LoginMessage {token} status msg.

Section Login.

Variable token : Type.

(** [create_access_token(identity=...)] of flask_jwt_extended. *)
Variable create_access_token : string -> token.

(** [user.password == password], where [password] may be [None]. *)
Definition password_matches (user : User.t) (password : option string) : bool :=
  match password with
  | Some p => String.eqb (User.password user) p
  | None => false
  end.

(** [username] is a column that is never null, so the query for
    [username=None] finds no row. *)
Definition login (request_json : Credentials.t) (db : database)
    : login_response token :=
  let username := Credentials.username request_json in
  let password := Credentials.password request_json in
  let user := match username with
              | Some u => User_query_first u db
              | None => None
              end in
  match user, username with
  | Some user, Some u =>
      if password_matches user password
      then AccessToken 200 (create_access_token u)
      else LoginMessage 401 "Bad username or password"
  | _, _ => LoginMessage 401 "Bad username or password"
  end.

End Login.

(** ** The database location *)

(** [s[n:]] *)
Fixpoint string_drop (n : nat) (s : string) : string :=
  match n, s with
  | O, _ => s
  | S n', String _ s' => string_drop n' s'
  | S _, EmptyString => EmptyString
  end.

(** [s.replace(old, new, 1)]: the leftmost occurrence of [old] is replaced. *)
Fixpoint replace_first (old new s : string) : string :=
  if String.prefix old s
  then new ++ string_drop (String.length old) s
  else match s with
       | EmptyString => EmptyString
       | String c s' => String c (replace_first old new s')
       end.

(** The value of [database_url] after the set-up lines; [env] is
    [os.environ.get('DATABASE_URL')]. *)
Definition database_url (env : option string) : string :=
  let database_url :=
    match env with
    | Some v => v
    | None => "sqlite:///solar_forecast.db"
    end in
  if String.prefix "postgres://" database_url
  then replace_first "postgres://" "postgresql://" database_url
  else database_url.

(** * Vocabulary of the statements *)

(** ** The estimator's scenario, geometry and irradiance *)

(** The specification's scenario: tilt 30, azimuth 180, area 10, and
    one stored point with GHI 500, DNI 600, DHI 100, on day 19000. *)
Definition scenario_plant : Plant.t :=
  Plant.mk 1 "alpha" 1 6.9%R 79.8%R 5%R 10%R 30%R 180%R.

Definition scenario_point : Forecast.t :=
  Forecast.mk 1 1 (midnight 19000 + 1800000000) 500%R 600%R 100%R 25%R 10%R.

Definition scenario_db : database :=
  mkdb [User.mk 1 "ann" "pw"] [scenario_plant] [scenario_point] [].







(** ** The ledger *)

(** The rows one estimation pass adds: one per plant, in the order of
    the plant directory, each with the next free primary key. *)
Fixpoint new_records (today : date) (fs : list Forecast.t) (ids : list Z)
    (directory : list Plant.t) : list PlantPerformance.t :=
  match directory with
  | [] => []
  | plant :: rest =>
      PlantPerformance.mk (next_id ids) (Plant.id plant) today
                          (total_energy plant (day_forecasts plant today fs))
      :: new_records today fs (ids ++ [next_id ids]) rest
  end.

(** What a reader of the ledger sees of a row. *)
Definition ledger_entry (r : PlantPerformance.t) : Z * date * R :=
  (PlantPerformance.plant_id r, PlantPerformance.date r,
   PlantPerformance.expected_output r).

Definition expected_entry (today : date) (fs : list Forecast.t)
    (plant : Plant.t) : Z * date * R :=
  (Plant.id plant, today, total_energy plant (day_forecasts plant today fs)).

(** The rows a pass has added to the ledger of [db]. *)
Definition added_records (db db' : database) : list PlantPerformance.t :=
  skipn (List.length (performances db)) (performances db').

(** ** Update-or-insert on the list of rows *)

(** The identity a row is looked up by. *)
Definition key (f : Forecast.t) : Z * datetime :=
  (Forecast.plant_id f, Forecast.timestamp f).

Definition has_key (k : Z * datetime) (f : Forecast.t) : bool :=
  same_key (fst k) (snd k) f.

(** The five assignments of the update path, taken together. *)
Definition overwrite (src dst : Forecast.t) : Forecast.t :=
  Forecast.mk (Forecast.id dst) (Forecast.plant_id dst) (Forecast.timestamp dst)
              (Forecast.ghi src) (Forecast.dni src) (Forecast.dhi src)
              (Forecast.air_temp src) (Forecast.cloud_opacity src).

Definition with_id (i : Z) (f : Forecast.t) : Forecast.t :=
  Forecast.mk i (Forecast.plant_id f) (Forecast.timestamp f)
              (Forecast.ghi f) (Forecast.dni f) (Forecast.dhi f)
              (Forecast.air_temp f) (Forecast.cloud_opacity f).

(** Change the first element that satisfies [p]. *)
Fixpoint update_first {A} (p : A -> bool) (g : A -> A) (l : list A) : list A :=
  match l with
  | [] => []
  | x :: l' => if p x then g x :: l' else x :: update_first p g l'
  end.

(** Update-if-present-else-insert of one fully decoded point; [row]
    carries the plant, the timestamp and the five measures, its own
    primary key is not used. *)
Definition upsert (row : Forecast.t) (fs : list Forecast.t) : list Forecast.t :=
  if existsb (has_key (key row)) fs
  then update_first (has_key (key row)) (overwrite row) fs
  else fs ++ [with_id (next_id (map Forecast.id fs)) row].

Definition upserts (rows : list Forecast.t) (fs : list Forecast.t)
    : list Forecast.t :=
  fold_left (fun acc row => upsert row acc) rows fs.

(** At most one row per (plant, timestamp). *)
Definition unique_keys (fs : list Forecast.t) : Prop := NoDup (map key fs).

(** [refresh k r]: the update path for key [k] with the measures of [r]. *)
Definition refresh (k : Z * datetime) (r : Forecast.t) (fs : list Forecast.t)
    : list Forecast.t :=
  update_first (has_key k) (overwrite r) fs.

Definition present (k : Z * datetime) (fs : list Forecast.t) : bool :=
  existsb (has_key k) fs.

(** ** The exchanges of a reconcile pass *)

Definition set_forecasts (fs : list Forecast.t) (w : world) : world :=
  mkworld (committed w) (with_forecasts fs (session w)) (error_log w) (network w).

(** What one provider exchange means for the pass. *)
Inductive fetch_class :=
| Skipped (status_code : Z)
| Reconciled (rows : list Forecast.t)
| Aborted.

(** The requests of one pass, paired with the plants they are made for. *)
Definition exchanges (net : nat -> http_outcome) (directory : list Plant.t)
    : list (Plant.t * http_outcome) :=
  combine directory (map net (seq 0 (List.length directory))).

Section ReconcileSpec.

(** [datetime.fromisoformat], as in the pass. *)
Variable fromisoformat : string -> option datetime.

(** A point all of whose keys are present and whose timestamp parses,
    as the row it describes (with a primary key of 0 as a filler). *)
Definition decode (plant_id : Z) (data : Point.t) : option Forecast.t :=
  match Point.period_end data with
  | Some s =>
      match fromisoformat s, Point.ghi data, Point.dni data, Point.dhi data,
            Point.air_temp data, Point.cloud_opacity data with
      | Some ts, Some g, Some n, Some h, Some a, Some c =>
          Some (Forecast.mk 0 plant_id ts g n h a c)
      | _, _, _, _, _, _ => None
      end
  | None => None
  end.

Fixpoint decode_all (plant_id : Z) (l : list Point.t) : option (list Forecast.t) :=
  match l with
  | [] => Some []
  | data :: l' =>
      match decode plant_id data, decode_all plant_id l' with
      | Some row, Some rows => Some (row :: rows)
      | _, _ => None
      end
  end.

Definition classify (plant : Plant.t) (o : http_outcome) : fetch_class :=
  match o with
  | ConnectionFailed => Aborted
  | HttpResponse status_code body =>
      if status_code =? 200
      then match body with
           | JSONObject (Some l) =>
               match decode_all (Plant.id plant) l with
               | Some rows => Reconciled rows
               | None => Aborted
               end
           | _ => Aborted
           end
      else Skipped status_code
  end.

(** The rows a pass reconciles, in order, when no exchange aborts it. *)
Fixpoint pass_rows (exs : list (Plant.t * http_outcome))
    : option (list Forecast.t) :=
  match exs with
  | [] => Some []
  | (plant, o) :: rest =>
      match classify plant o, pass_rows rest with
      | Skipped _, Some rows' => Some rows'
      | Reconciled rows, Some rows' => Some (rows ++ rows')
      | _, _ => None
      end
  end.

(** The status codes a pass logs. *)
Fixpoint pass_statuses (exs : list (Plant.t * http_outcome)) : list Z :=
  match exs with
  | [] => []
  | (plant, o) :: rest =>
      match classify plant o with
      | Skipped status_code => status_code :: pass_statuses rest
      | _ => pass_statuses rest
      end
  end.

End ReconcileSpec.

(** ** Scenarios for the reconcile pass *)

(** A parser that knows two timestamps of day 19000. *)
Definition demo_fromisoformat (s : string) : option datetime :=
  if (s =? "2022-01-08T00:30:00")%string then Some (midnight 19000 + 1800000000)
  else if (s =? "2022-01-08T01:00:00")%string then Some (midnight 19000 + 3600000000)
  else None.

Definition point_0030 : Point.t :=
  Point.mk (Some "2022-01-08T00:30:00")
           (Some 500%R) (Some 600%R) (Some 100%R) (Some 25%R) (Some 10%R).

(** A second entry for the same timestamp. *)
Definition point_0030_revised : Point.t :=
  Point.mk (Some "2022-01-08T00:30:00")
           (Some 480%R) (Some 590%R) (Some 110%R) (Some 24%R) (Some 20%R).

(** An entry without its [ghi] key. *)
Definition point_without_ghi : Point.t :=
  Point.mk (Some "2022-01-08T01:00:00")
           None (Some 600%R) (Some 100%R) (Some 25%R) (Some 10%R).

Definition second_plant : Plant.t :=
  Plant.mk 2 "beta" 1 7.3%R 80.6%R 8%R 20%R 30%R 180%R.

Definition two_plant_db : database :=
  mkdb [User.mk 1 "ann" "pw"] [scenario_plant; second_plant] [] [].

(** The first plant is answered well, the second with an entry that
    lacks a key. *)
Definition net_second_malformed (k : nat) : http_outcome :=
  match k with
  | O => HttpResponse 200 (JSONObject (Some [point_0030]))
  | _ => HttpResponse 200 (JSONObject (Some [point_without_ghi]))
  end.

(** The first plant is answered with status 500, the second well. *)
Definition net_first_500 (k : nat) : http_outcome :=
  match k with
  | O => HttpResponse 500 NotJSON
  | _ => HttpResponse 200 (JSONObject (Some [point_0030]))
  end.

(** Every plant is answered with two entries for one timestamp. *)
Definition net_duplicates (k : nat) : http_outcome :=
  HttpResponse 200 (JSONObject (Some [point_0030; point_0030_revised])).

(** ** Sequences of passes, and kinds of provider answers *)

(** A sequence of reconcile calls, each with its own network. *)
Definition reconcile_calls (fromisoformat : string -> option datetime)
    (nets : list (nat -> http_outcome)) (db : database) : database :=
  fold_left (fun d net => snd (run net (update_forecast_data fromisoformat) d))
            nets db.

(** The ways a provider exchange can fail or succeed. *)
Definition http_failure (o : http_outcome) : Prop :=
  exists status_code body,
    o = HttpResponse status_code body /\ status_code <> 200.

Definition clean_answer (fromisoformat : string -> option datetime)
    (plant : Plant.t) (o : http_outcome) : Prop :=
  exists l rows,
    o = HttpResponse 200 (JSONObject (Some l))
    /\ decode_all fromisoformat (Plant.id plant) l = Some rows.

Definition answered_200 (o : http_outcome) : bool :=
  match o with
  | ConnectionFailed => false
  | HttpResponse status_code _ => status_code =? 200
  end.

Definition status_of (o : http_outcome) : Z :=
  match o with
  | ConnectionFailed => 0
  | HttpResponse status_code _ => status_code
  end.

(** An entry of the [forecasts] list with a key missing. *)
Definition missing_field (data : Point.t) : Prop :=
  Point.period_end data = None \/ Point.ghi data = None
  \/ Point.dni data = None \/ Point.dhi data = None
  \/ Point.air_temp data = None \/ Point.cloud_opacity data = None.

(** A provider response that is not a success: no response at all, a
    status outside 2xx, a body that is not the JSON the contract
    describes, or an entry with a missing field. *)
Definition non_success (o : http_outcome) : Prop :=
  match o with
  | ConnectionFailed => True
  | HttpResponse status_code body =>
      ~ (200 <= status_code < 300)
      \/ body = NotJSON
      \/ body = JSONObject None
      \/ exists l data, body = JSONObject (Some l) /\ In data l /\ missing_field data
  end.

(** ** A scenario for the read endpoints *)

(** Two users; the only plant, [alpha], and its rows belong to the second. *)
Definition shared_db : database :=
  mkdb [User.mk 1 "ann" "pw"; User.mk 2 "bob" "pw"]
       [Plant.mk 1 "alpha" 2 6.9%R 79.8%R 5%R 10%R 30%R 180%R]
       [scenario_point]
       [PlantPerformance.mk 1 1 19000 (-0.3)%R].

Definition demo_datetime_isoformat (ts : datetime) : string :=
  if ts =? midnight 19000 + 1800000000 then "2022-01-08T00:30:00" else "".

Definition demo_date_isoformat (d : date) : string :=
  if d =? 19000 then "2022-01-08" else "".

(** ** Vocabulary of the further properties *)

(** What identifies a stored row: its primary key and its lookup key. *)
Definition row_identity (f : Forecast.t) : Z * (Z * datetime) :=
  (Forecast.id f, key f).

(** The five measured fields of a row. *)
Definition measures (f : Forecast.t) : R * R * R * R * R :=
  (Forecast.ghi f, Forecast.dni f, Forecast.dhi f,
   Forecast.air_temp f, Forecast.cloud_opacity f).

(** [Forecast.query.filter_by(plant_id=.., timestamp=..).first()], as
    the row it loads. *)
Definition stored_at (k : Z * datetime) (fs : list Forecast.t)
    : option Forecast.t :=
  find (has_key k) fs.

(** The first of the five measure keys that an entry lacks, in the
    order in which the pass reads them. *)
Definition first_missing_measure (data : Point.t) : option string :=
  match Point.ghi data, Point.dni data, Point.dhi data,
        Point.air_temp data, Point.cloud_opacity data with
  | None, _, _, _, _ => Some "ghi"
  | _, None, _, _, _ => Some "dni"
  | _, _, None, _, _ => Some "dhi"
  | _, _, _, None, _ => Some "air_temp"
  | _, _, _, _, None => Some "cloud_opacity"
  | Some _, Some _, Some _, Some _, Some _ => None
  end.

(** Orders of the two read endpoints. *)
Definition by_timestamp (a b : Forecast.t) : Prop :=
  Forecast.timestamp a <= Forecast.timestamp b.

Definition latest_first (a b : PlantPerformance.t) : Prop :=
  PlantPerformance.date b <= PlantPerformance.date a.

(** Bob's plant with three stored rows, not in the order of their
    timestamps, and a ledger of forty days. *)
Definition busy_db : database :=
  mkdb [User.mk 1 "ann" "pw"; User.mk 2 "bob" "secret"]
       [Plant.mk 1 "alpha" 2 6.9%R 79.8%R 5%R 10%R 30%R 180%R]
       [Forecast.mk 1 1 (midnight 19000 + 3600000000) 510%R 610%R 90%R 25%R 10%R;
        Forecast.mk 2 1 (midnight 19000 + 1800000000) 500%R 600%R 100%R 25%R 10%R;
        Forecast.mk 3 1 (midnight 19001) 0%R 0%R 0%R 20%R 0%R]
       (map (fun d => PlantPerformance.mk d 1 (18960 + d) 1%R)
            (map Z.of_nat (seq 1 40))).

(** The rows that the entries [point_0030] and [point_0030_revised]
    describe for a plant. *)
Definition decoded_0030 (plant_id : Z) : Forecast.t :=
  Forecast.mk 0 plant_id (midnight 19000 + 1800000000)
              500%R 600%R 100%R 25%R 10%R.

Definition decoded_0030_revised (plant_id : Z) : Forecast.t :=
  Forecast.mk 0 plant_id (midnight 19000 + 1800000000)
              480%R 590%R 110%R 24%R 20%R.

(** The two plants, with one row stored for the first. *)
Definition stocked_db : database :=
  mkdb [User.mk 1 "ann" "pw"] [scenario_plant; second_plant] [scenario_point] [].

(** An entry for the stored timestamp that has [ghi] and lacks [dni]. *)
Definition point_without_dni : Point.t :=
  Point.mk (Some "2022-01-08T00:30:00")
           (Some 480%R) None (Some 110%R) (Some 24%R) (Some 20%R).

(** The outcomes of the requests that are still to come after a pass. *)
Definition requests_left {A} (net : nat -> http_outcome) (m : M A)
    (db : database) : nat -> http_outcome :=
  network (snd (m (start net db))).

(** The first plant is answered with a point of the next day, the
    second with a point of day 19000. *)
Definition net_next_day (k : nat) : http_outcome :=
  match k with
  | O => HttpResponse 200
           (JSONObject (Some [Point.mk (Some "2022-01-09T00:00:00")
                                       (Some 1%R) (Some 2%R) (Some 3%R)
                                       (Some 4%R) (Some 5%R)]))
  | _ => HttpResponse 200 (JSONObject (Some [point_0030]))
  end.

Definition demo_fromisoformat_two_days (s : string) : option datetime :=
  if (s =? "2022-01-09T00:00:00")%string then Some (midnight 19001)
  else demo_fromisoformat s.

(** A token that is the identity it was made for. *)
Definition plain_token (identity : string) : string := identity.

(** * Theorems *)


(** ** The estimator *)

Section EstimatorFacts.
Local Open Scope R_scope.



Lemma sum_nil : sum [] = 0.
Proof. reflexivity. Qed.











End EstimatorFacts.

(** ** The estimation pass *)

Lemma new_records_entries today fs ids directory :
  map ledger_entry (new_records today fs ids directory)
  = map (expected_entry today fs) directory.
Proof.
  revert ids; induction directory as [|plant rest IH]; intro ids; simpl.
  - reflexivity.
  - now rewrite IH.
Qed.

Lemma new_records_length today fs ids directory :
  List.length (new_records today fs ids directory) = List.length directory.
Proof.
  rewrite <- (List.length_map ledger_entry), new_records_entries.
  apply List.length_map.
Qed.

Lemma for_each_estimate_plant today directory : forall w,
  for_each (estimate_plant today) directory w
  = (Ok tt,
     mkworld (committed w)
             (with_performances
                (performances (session w)
                 ++ new_records today (forecasts (session w))
                      (map PlantPerformance.id (performances (session w)))
                      directory)
                (session w))
             (error_log w) (network w)).
Proof.
  induction directory as [|plant rest IH]; intros [c [us ps fs perf] log net].
  - simpl. unfold ret, with_performances; simpl. now rewrite app_nil_r.
  - cbn [for_each]. unfold bind at 1.
    unfold estimate_plant, bind, Forecast_query_day,
      db_session_add_performance, on_session; cbn -[next_id total_energy].
    rewrite IH. cbn -[next_id total_energy].
    unfold with_performances; cbn -[next_id total_energy].
    now rewrite map_app, <- app_assoc.
Qed.

Lemma run_calculate_plant_performance net today db :
  run net (calculate_plant_performance today) db
  = (Ok tt,
     with_performances
       (performances db
        ++ new_records today (forecasts db)
             (map PlantPerformance.id (performances db)) (plants db))
       db).
Proof.
  unfold run, calculate_plant_performance, bind, Plant_query_all, start.
  cbn [session plants]. rewrite for_each_estimate_plant.
  reflexivity.
Qed.

Lemma skipn_app_exact {A} (l r : list A) : skipn (List.length l) (l ++ r) = r.
Proof. induction l; simpl; auto. Qed.

Lemma added_records_calculate net today db :
  added_records db (snd (run net (calculate_plant_performance today) db))
  = new_records today (forecasts db)
      (map PlantPerformance.id (performances db)) (plants db).
Proof.
  rewrite run_calculate_plant_performance. unfold added_records; simpl.
  apply skipn_app_exact.
Qed.

(** The day window is half-open. *)
Example in_day_is_half_open :
  in_day 19000 (midnight 19000) = true
  /\ in_day 19000 (midnight 19001 - 1) = true
  /\ in_day 19000 (midnight 19001) = false
  /\ in_day 19000 (midnight 19000 - 1) = false.
Proof. repeat split. Qed.

Lemma day_forecasts_nil plant today fs :
  (forall f, In f fs -> Forecast.plant_id f = Plant.id plant ->
             ~ (midnight today <= Forecast.timestamp f < midnight (add_days today 1))) ->
  day_forecasts plant today fs = [].
Proof.
  intro Hout. unfold day_forecasts.
  induction fs as [|f fs IH]; simpl; [reflexivity|].
  destruct (Forecast.plant_id f =? Plant.id plant) eqn:Hid; simpl.
  - apply Z.eqb_eq in Hid.
    assert (Hday : in_day today (Forecast.timestamp f) = false).
    { unfold in_day. apply andb_false_iff.
      destruct (midnight today <=? Forecast.timestamp f) eqn:Hlo; [right|now left].
      apply Z.leb_le in Hlo. apply Z.ltb_ge.
      specialize (Hout f (or_introl eq_refl) Hid). lia. }
    rewrite Hday. apply IH. intros g Hg. apply Hout. now right.
  - apply IH. intros g Hg. apply Hout. now right.
Qed.

Lemma total_energy_nil plant : total_energy plant [] = 0%R.
Proof. unfold total_energy; simpl map. rewrite sum_nil. lra. Qed.






(** C7. Every call of the estimation pass succeeds and appends exactly
    one new record per plant of the directory, for the day, with the
    estimate; the rows already in the ledger stay, so a second call for
    the same day appends a second record per plant. *)
Theorem C7_pass_appends_one_record_per_plant net net' today db :
  let once := run net (calculate_plant_performance today) db in
  let twice := run net' (calculate_plant_performance today) (snd once) in
  fst once = Ok tt /\ fst twice = Ok tt
  /\ exists first second,
       performances (snd once) = performances db ++ first
       /\ performances (snd twice) = (performances db ++ first) ++ second
       /\ map ledger_entry first
          = map (expected_entry today (forecasts db)) (plants db)
       /\ map ledger_entry second
          = map (expected_entry today (forecasts db)) (plants db).
Proof.
  cbv zeta. rewrite !run_calculate_plant_performance. cbn [fst snd].
  split; [reflexivity|]. split; [reflexivity|].
  eexists; eexists. cbn [performances with_performances plants forecasts].
  split; [reflexivity|]. split; [reflexivity|].
  now rewrite !new_records_entries.
Qed.

(** C8. If no stored point of a plant of the directory has its
    timestamp in the half-open window [day 00:00, day+1 00:00), the
    estimate is exactly 0, the pass raises nothing, and the record it
    adds for the plant carries 0. *)
Theorem C8_empty_window_estimates_zero net today db plant :
  In plant (plants db) ->
  (forall f, In f (forecasts db) ->
             Forecast.plant_id f = Plant.id plant ->
             ~ (midnight today <= Forecast.timestamp f
                < midnight (add_days today 1))) ->
  total_energy plant (day_forecasts plant today (forecasts db)) = 0%R
  /\ fst (run net (calculate_plant_performance today) db) = Ok tt
  /\ In (Plant.id plant, today, 0%R)
        (map ledger_entry
           (added_records db
              (snd (run net (calculate_plant_performance today) db)))).
Proof.
  intros Hplant Hout.
  assert (Hzero : total_energy plant (day_forecasts plant today (forecasts db)) = 0%R).
  { rewrite (day_forecasts_nil _ _ _ Hout). apply total_energy_nil. }
  split; [exact Hzero|].
  split; [now rewrite run_calculate_plant_performance|].
  rewrite added_records_calculate, new_records_entries.
  apply in_map_iff. exists plant. split; [|exact Hplant].
  unfold expected_entry. now rewrite Hzero.
Qed.

Lemma C8_empty_window_estimates_zero_witness :
  In scenario_plant (plants scenario_db)
  /\ (forall f, In f (forecasts scenario_db) ->
                Forecast.plant_id f = Plant.id scenario_plant ->
                ~ (midnight 19001 <= Forecast.timestamp f
                   < midnight (add_days 19001 1)))
  /\ (total_energy scenario_plant
        (day_forecasts scenario_plant 19001 (forecasts scenario_db)) = 0%R
      /\ fst (run (fun _ => ConnectionFailed)
                  (calculate_plant_performance 19001) scenario_db) = Ok tt
      /\ In (Plant.id scenario_plant, 19001, 0%R)
            (map ledger_entry
               (added_records scenario_db
                  (snd (run (fun _ => ConnectionFailed)
                            (calculate_plant_performance 19001) scenario_db))))).
Proof.
  assert (Hplant : In scenario_plant (plants scenario_db)) by (left; reflexivity).
  assert (Hout : forall f, In f (forecasts scenario_db) ->
                Forecast.plant_id f = Plant.id scenario_plant ->
                ~ (midnight 19001 <= Forecast.timestamp f
                   < midnight (add_days 19001 1))).
  { intros f [<-|[]] _. unfold scenario_point, midnight, usec_per_day; simpl. lia. }
  split; [exact Hplant|]. split; [exact Hout|].
  exact (C8_empty_window_estimates_zero (fun _ => ConnectionFailed) 19001
           scenario_db scenario_plant Hplant Hout).
Defined.




(** ** The reconcile pass, row by row *)

Section ListFacts.
Context {A : Type}.
Implicit Types (p q : A -> bool) (g h : A -> A) (l : list A).

Lemma find_index_existsb p l :
  find_index p l = None <-> existsb p l = false.
Proof.
  induction l as [|x l IH]; simpl; [tauto|].
  destruct (p x); simpl; [split; discriminate|].
  rewrite <- IH. destruct (find_index p l); simpl; split; congruence.
Qed.

Lemma modify_at_found p g l :
  match find_index p l with
  | Some i => modify_nth i g l
  | None => l
  end = update_first p g l.
Proof.
  induction l as [|x l IH]; simpl; [reflexivity|].
  destruct (p x); simpl; [reflexivity|].
  destruct (find_index p l); simpl; now rewrite <- IH.
Qed.

Lemma modify_nth_twice i g h l :
  modify_nth i g (modify_nth i h l) = modify_nth i (fun x => g (h x)) l.
Proof.
  revert i; induction l as [|x l IH]; intros [|i]; simpl; try reflexivity.
  now rewrite IH.
Qed.

Lemma modify_nth_ext i g h l :
  (forall x, g x = h x) -> modify_nth i g l = modify_nth i h l.
Proof.
  intro Hext. revert i; induction l as [|x l IH]; intros [|i]; simpl;
    try reflexivity.
  - now rewrite Hext.
  - now rewrite IH.
Qed.

Lemma update_first_absent p g l :
  existsb p l = false -> update_first p g l = l.
Proof.
  induction l as [|x l IH]; simpl; [reflexivity|].
  destruct (p x); simpl; [discriminate|]. intro H. now rewrite IH.
Qed.

Lemma update_first_app_present p g l r :
  existsb p l = true -> update_first p g (l ++ r) = update_first p g l ++ r.
Proof.
  induction l as [|x l IH]; simpl; [discriminate|].
  destruct (p x); simpl; [reflexivity|]. intro H. now rewrite IH.
Qed.

Lemma update_first_app_absent p g l r :
  existsb p l = false -> update_first p g (l ++ r) = l ++ update_first p g r.
Proof.
  induction l as [|x l IH]; simpl; [reflexivity|].
  destruct (p x); simpl; [discriminate|]. intro H. now rewrite IH.
Qed.

Lemma update_first_twice p g h l :
  (forall x, p (h x) = p x) ->
  update_first p g (update_first p h l) = update_first p (fun x => g (h x)) l.
Proof.
  intro Hp. induction l as [|x l IH]; simpl; [reflexivity|].
  destruct (p x) eqn:Hx; simpl.
  - now rewrite Hp, Hx.
  - now rewrite Hx, IH.
Qed.

Lemma update_first_ext p g h l :
  (forall x, g x = h x) -> update_first p g l = update_first p h l.
Proof.
  intro Hext. induction l as [|x l IH]; simpl; [reflexivity|].
  now rewrite Hext, IH.
Qed.

Lemma update_first_swap p q g h l :
  (forall x, p x = true -> q x = false) ->
  (forall x, p (h x) = p x) -> (forall x, q (g x) = q x) ->
  update_first p g (update_first q h l) = update_first q h (update_first p g l).
Proof.
  intros Hdisj Hp Hq. induction l as [|x l IH]; simpl; [reflexivity|].
  destruct (p x) eqn:Hpx, (q x) eqn:Hqx; simpl.
  - rewrite (Hdisj x Hpx) in Hqx. discriminate.
  - now rewrite Hpx, Hq, Hqx.
  - now rewrite Hp, Hpx, Hqx.
  - now rewrite Hpx, Hqx, IH.
Qed.

Lemma existsb_update_first p q g l :
  (forall x, q (g x) = q x) ->
  existsb q (update_first p g l) = existsb q l.
Proof.
  intro Hq. induction l as [|x l IH]; simpl; [reflexivity|].
  destruct (p x); simpl; [now rewrite Hq | now rewrite IH].
Qed.

Lemma map_update_first {B} (f : A -> B) p g l :
  (forall x, f (g x) = f x) -> map f (update_first p g l) = map f l.
Proof.
  intro Hf. induction l as [|x l IH]; simpl; [reflexivity|].
  destruct (p x); simpl; [now rewrite Hf | now rewrite IH].
Qed.

End ListFacts.

(** ** Algebra of [upsert] *)

Lemma has_key_true k f : has_key k f = true <-> key f = k.
Proof.
  destruct k as [pid ts]. unfold has_key, same_key, key; simpl.
  rewrite andb_true_iff, !Z.eqb_eq. split.
  - intros [-> ->]; reflexivity.
  - intro H; inversion H; auto.
Qed.

Lemma has_key_false k f : has_key k f = false <-> key f <> k.
Proof.
  rewrite <- has_key_true. destruct (has_key k f); split; congruence.
Qed.

Lemma has_key_overwrite k r f : has_key k (overwrite r f) = has_key k f.
Proof. reflexivity. Qed.

Lemma key_overwrite r f : key (overwrite r f) = key f.
Proof. reflexivity. Qed.

Lemma overwrite_overwrite a b f : overwrite a (overwrite b f) = overwrite a f.
Proof. reflexivity. Qed.

Lemma overwrite_with_id n r : overwrite r (with_id n r) = with_id n r.
Proof. reflexivity. Qed.

Lemma has_key_with_id n r : has_key (key r) (with_id n r) = true.
Proof. apply has_key_true. reflexivity. Qed.

Lemma upsert_cases r fs :
  upsert r fs
  = if present (key r) fs then refresh (key r) r fs
    else fs ++ [with_id (next_id (map Forecast.id fs)) r].
Proof. reflexivity. Qed.

Lemma present_refresh k k' r fs : present k (refresh k' r fs) = present k fs.
Proof. apply existsb_update_first. intro x. apply has_key_overwrite. Qed.

Lemma ids_refresh k r fs :
  map Forecast.id (refresh k r fs) = map Forecast.id fs.
Proof. apply map_update_first. reflexivity. Qed.

Lemma keys_refresh k r fs : map key (refresh k r fs) = map key fs.
Proof. apply map_update_first. intro x. apply key_overwrite. Qed.

Lemma present_in_keys k fs : present k fs = true <-> In k (map key fs).
Proof.
  unfold present. rewrite existsb_exists, in_map_iff.
  split; intros (f & H1 & H2).
  - exists f. split; [now apply has_key_true | exact H1].
  - exists f. split; [exact H2 | now apply has_key_true].
Qed.

Lemma present_upsert_same r fs : present (key r) (upsert r fs) = true.
Proof.
  rewrite upsert_cases. destruct (present (key r) fs) eqn:H.
  - now rewrite present_refresh.
  - unfold present. rewrite existsb_app. simpl.
    now rewrite has_key_with_id, orb_true_r.
Qed.

Lemma present_upsert k r fs :
  present k fs = true -> present k (upsert r fs) = true.
Proof.
  intro H. rewrite upsert_cases. destruct (present (key r) fs).
  - now rewrite present_refresh.
  - unfold present in *. rewrite existsb_app, H. reflexivity.
Qed.

Lemma present_upserts k rows : forall fs,
  present k fs = true -> present k (upserts rows fs) = true.
Proof.
  induction rows as [|r rows IH]; intros fs H; simpl; [exact H|].
  apply IH. now apply present_upsert.
Qed.

Lemma upserts_cons r rows fs : upserts (r :: rows) fs = upserts rows (upsert r fs).
Proof. reflexivity. Qed.

Lemma upserts_app rows rows' fs :
  upserts (rows ++ rows') fs = upserts rows' (upserts rows fs).
Proof. apply fold_left_app. Qed.

(** Writing a point a second time changes nothing. *)
Lemma refresh_after_upsert r fs : refresh (key r) r (upsert r fs) = upsert r fs.
Proof.
  rewrite upsert_cases. destruct (present (key r) fs) eqn:H.
  - unfold refresh. rewrite update_first_twice by (intro; apply has_key_overwrite).
    apply update_first_ext. intro x. apply overwrite_overwrite.
  - unfold refresh. rewrite update_first_app_absent by exact H.
    simpl. now rewrite has_key_with_id, overwrite_with_id.
Qed.

(** Two writes to the same key: the later one wins. *)
Lemma upsert_after_refresh a r fs :
  key a = key r -> present (key r) fs = true ->
  upsert a (refresh (key r) r fs) = upsert a fs.
Proof.
  intros Hk Hp. rewrite !upsert_cases, present_refresh, Hk, Hp.
  unfold refresh. rewrite update_first_twice by (intro; apply has_key_overwrite).
  apply update_first_ext. intro x. apply overwrite_overwrite.
Qed.

(** Writes to different keys commute, once the refreshed key is stored. *)
Lemma upsert_refresh_swap a k r fs :
  key a <> k -> present k fs = true ->
  upsert a (refresh k r fs) = refresh k r (upsert a fs).
Proof.
  intros Hk Hp. rewrite !upsert_cases, present_refresh.
  destruct (present (key a) fs) eqn:Ha.
  - unfold refresh. apply update_first_swap.
    + intros x Hx. apply has_key_true in Hx. apply has_key_false. congruence.
    + intro; apply has_key_overwrite.
    + intro; apply has_key_overwrite.
  - rewrite ids_refresh. unfold refresh.
    now rewrite update_first_app_present by exact Hp.
Qed.

Lemma upserts_refresh_swap k r rows : forall fs,
  present k rows = false -> present k fs = true ->
  upserts rows (refresh k r fs) = refresh k r (upserts rows fs).
Proof.
  induction rows as [|a rows IH]; intros fs Hrows Hp; [reflexivity|].
  unfold present in Hrows; simpl in Hrows. apply orb_false_iff in Hrows.
  destruct Hrows as [Ha Hrows]. apply has_key_false in Ha.
  rewrite !upserts_cons, upsert_refresh_swap by assumption.
  apply IH; [exact Hrows | now apply present_upsert].
Qed.

Lemma upserts_refresh_absorbed r rows : forall fs,
  present (key r) rows = true -> present (key r) fs = true ->
  upserts rows (refresh (key r) r fs) = upserts rows fs.
Proof.
  induction rows as [|a rows IH]; intros fs Hrows Hp; [discriminate|].
  rewrite !upserts_cons.
  destruct (has_key (key r) a) eqn:Ha.
  - apply has_key_true in Ha. now rewrite upsert_after_refresh.
  - unfold present in Hrows; simpl in Hrows. rewrite Ha in Hrows; simpl in Hrows.
    apply has_key_false in Ha.
    rewrite upsert_refresh_swap by assumption.
    apply IH; [exact Hrows | now apply present_upsert].
Qed.

(** Reconciling the same rows twice is reconciling them once. *)
Lemma upserts_idempotent rows : forall fs,
  upserts rows (upserts rows fs) = upserts rows fs.
Proof.
  induction rows as [|r rows IH]; intro fs; [reflexivity|].
  rewrite !upserts_cons.
  set (s1 := upsert r fs).
  assert (Hs1 : present (key r) s1 = true) by apply present_upsert_same.
  assert (Hp : present (key r) (upserts rows s1) = true)
    by now apply present_upserts.
  rewrite (upsert_cases r (upserts rows s1)), Hp.
  destruct (present (key r) rows) eqn:Hrows.
  - rewrite upserts_refresh_absorbed by assumption. apply IH.
  - rewrite <- upserts_refresh_swap by assumption.
    unfold s1. rewrite refresh_after_upsert. apply IH.
Qed.

(** [upsert] keeps the keys of the store distinct. *)
Lemma unique_keys_upsert r fs : unique_keys fs -> unique_keys (upsert r fs).
Proof.
  unfold unique_keys. intro H. rewrite upsert_cases.
  destruct (present (key r) fs) eqn:Hp.
  - now rewrite keys_refresh.
  - rewrite map_app. simpl.
    apply NoDup_app; [exact H | constructor; [intros []|constructor] |].
    intros k Hk [<-|[]].
    apply present_in_keys in Hk.
    change (key (with_id (next_id (map Forecast.id fs)) r)) with (key r) in Hk.
    congruence.
Qed.

Lemma unique_keys_upserts rows : forall fs,
  unique_keys fs -> unique_keys (upserts rows fs).
Proof.
  induction rows as [|r rows IH]; intros fs H; [exact H|].
  rewrite upserts_cons. apply IH. now apply unique_keys_upsert.
Qed.

(** ** From the code of the pass to [upserts] *)

(** Sequencing, when the outcome of the first step is known. *)
Lemma bind_ok {A B} (m : M A) (k : A -> M B) w a w' :
  m w = (Ok a, w') -> bind m k w = k a w'.
Proof. unfold bind. now intros ->. Qed.

Lemma bind_raise {A B} (m : M A) (k : A -> M B) w e w' :
  m w = (Raise e, w') -> bind m k w = (Raise e, w').
Proof. unfold bind. now intros ->. Qed.

Section ReconcileFacts.

Variable fromisoformat : string -> option datetime.

Lemma set_forecasts_same w : set_forecasts (forecasts (session w)) w = w.
Proof. destruct w as [c [us ps fs perf] log net]. reflexivity. Qed.

Lemma set_forecasts_twice a b w :
  set_forecasts a (set_forecasts b w) = set_forecasts a w.
Proof. reflexivity. Qed.

Lemma reconcile_point_decoded plant data row w :
  decode fromisoformat (Plant.id plant) data = Some row ->
  reconcile_point fromisoformat plant data w
  = (Ok tt, set_forecasts (upsert row (forecasts (session w))) w).
Proof.
  destruct data as [[s|] [g|] [n|] [h|] [a|] [c|]]; unfold decode; simpl;
    try discriminate; destruct (fromisoformat s) as [ts|] eqn:Hiso;
    try discriminate.
  intro H; injection H as <-.
  destruct w as [cm [us ps fs perf] log net].
  unfold upsert, set_forecasts, with_forecasts, has_key, key.
  cbn [fst snd Forecast.plant_id Forecast.timestamp session forecasts
       committed error_log network users plants performances].
  change (fun f : Forecast.t => same_key (Plant.id plant) ts f)
    with (same_key (Plant.id plant) ts).
  rewrite <- (modify_at_found (same_key (Plant.id plant) ts)).
  unfold reconcile_point, bind, getitem, parse_timestamp, ret,
    Forecast_query_first, setattr, db_session_add_forecast, on_session,
    with_forecasts.
  cbn [Point.period_end Point.ghi Point.dni Point.dhi Point.air_temp
       Point.cloud_opacity session forecasts
       committed error_log network users plants performances].
  rewrite Hiso.
  cbn [session forecasts committed error_log network users plants performances].
  destruct (find_index (same_key (Plant.id plant) ts) fs) as [i|] eqn:Hfind.
  - assert (Hex : existsb (same_key (Plant.id plant) ts) fs = true).
    { destruct (existsb _ fs) eqn:E; [reflexivity|].
      apply find_index_existsb in E. congruence. }
    rewrite Hex.
    cbn [session forecasts committed error_log network users plants performances].
    rewrite !modify_nth_twice. reflexivity.
  - apply find_index_existsb in Hfind. rewrite Hfind. reflexivity.
Qed.

Lemma reconcile_point_undecoded plant data w :
  decode fromisoformat (Plant.id plant) data = None ->
  exists e w',
    reconcile_point fromisoformat plant data w = (Raise e, w')
    /\ committed w' = committed w.
Proof.
  destruct w as [cm [us ps fs perf] log net].
  unfold decode, reconcile_point, bind, getitem, parse_timestamp, ret, raise,
    Forecast_query_first.
  destruct data as [[s|] g n h a c]; simpl; [|eauto].
  destruct (fromisoformat s) as [ts|] eqn:Hiso; simpl; [|eauto].
  destruct (find_index (same_key (Plant.id plant) ts) fs) as [i|];
    rewrite ?Hiso;
    destruct g, n, h, a, c; simpl; try discriminate; eauto.
Qed.

Lemma for_each_reconcile_point plant l : forall w,
  match decode_all fromisoformat (Plant.id plant) l with
  | Some rows =>
      for_each (reconcile_point fromisoformat plant) l w
      = (Ok tt, set_forecasts (upserts rows (forecasts (session w))) w)
  | None =>
      exists e w',
        for_each (reconcile_point fromisoformat plant) l w = (Raise e, w')
        /\ committed w' = committed w
  end.
Proof.
  induction l as [|data l IH]; intro w; cbn [for_each decode_all].
  - unfold ret. cbn [upserts fold_left]. now rewrite set_forecasts_same.
  - destruct (decode fromisoformat (Plant.id plant) data) as [row|] eqn:Hrow.
    + rewrite (bind_ok _ _ _ _ _ (reconcile_point_decoded _ _ _ w Hrow)).
      specialize (IH (set_forecasts (upsert row (forecasts (session w))) w)).
      destruct (decode_all fromisoformat (Plant.id plant) l) as [rows|].
      * rewrite IH. reflexivity.
      * destruct IH as (e & w' & -> & Hc). eauto.
    + destruct (reconcile_point_undecoded _ _ w Hrow) as (e & w' & Hr & Hc).
      rewrite (bind_raise _ _ _ _ _ Hr). eauto.
Qed.

Lemma get_solcast_forecast_cases latitude longitude w :
  get_solcast_forecast latitude longitude w
  = let w' := mkworld (committed w) (session w) (error_log w)
                      (fun k => network w (S k)) in
    match network w 0%nat with
    | ConnectionFailed => (Raise RequestException, w')
    | HttpResponse status_code body =>
        if status_code =? 200
        then match body with
             | NotJSON => (Raise JSONDecodeError, w')
             | JSONObject None => (Raise (KeyError "forecasts"), w')
             | JSONObject (Some l) => (Ok (Some l), w')
             end
        else (Ok None,
              mkworld (committed w) (session w)
                      (error_log w ++ [status_code])
                      (fun k => network w (S k)))
    end.
Proof.
  unfold get_solcast_forecast, bind, requests_get.
  destruct (network w 0%nat) as [|status_code body]; [reflexivity|].
  cbn [fst snd]. destruct (status_code =? 200); [|reflexivity].
  destruct body as [|[l|]]; reflexivity.
Qed.

Lemma reconcile_plant_cases plant w :
  match classify fromisoformat plant (network w 0%nat) with
  | Skipped status_code =>
      reconcile_plant fromisoformat plant w
      = (Ok tt, mkworld (committed w) (session w)
                        (error_log w ++ [status_code])
                        (fun k => network w (S k)))
  | Reconciled rows =>
      reconcile_plant fromisoformat plant w
      = (Ok tt, mkworld (committed w)
                        (with_forecasts (upserts rows (forecasts (session w)))
                                        (session w))
                        (error_log w) (fun k => network w (S k)))
  | Aborted =>
      exists e w',
        reconcile_plant fromisoformat plant w = (Raise e, w')
        /\ committed w' = committed w
  end.
Proof.
  unfold reconcile_plant, classify.
  pose proof (get_solcast_forecast_cases (Plant.latitude plant)
                (Plant.longitude plant) w) as Hget.
  cbv zeta in Hget.
  destruct (network w 0%nat) as [|status_code body].
  - rewrite (bind_raise _ _ _ _ _ Hget). eauto.
  - destruct (status_code =? 200).
    + destruct body as [|[l|]].
      * rewrite (bind_raise _ _ _ _ _ Hget). eauto.
      * rewrite (bind_ok _ _ _ _ _ Hget).
        destruct l as [|data l].
        -- cbn [decode_all upserts fold_left]. unfold ret.
           destruct w as [cm [us ps fs perf] log net]. reflexivity.
        -- pose proof (for_each_reconcile_point plant (data :: l)
                         (mkworld (committed w) (session w) (error_log w)
                                  (fun k => network w (S k)))) as Hloop.
           destruct (decode_all fromisoformat (Plant.id plant) (data :: l)); exact Hloop.
      * rewrite (bind_raise _ _ _ _ _ Hget). eauto.
    + rewrite (bind_ok _ _ _ _ _ Hget). reflexivity.
Qed.

Lemma exchanges_cons net plant directory :
  exchanges net (plant :: directory)
  = (plant, net 0%nat) :: exchanges (fun k => net (S k)) directory.
Proof.
  unfold exchanges. cbn [List.length seq map combine].
  now rewrite <- seq_shift, map_map.
Qed.

Lemma for_each_reconcile_plant directory : forall w,
  match pass_rows fromisoformat (exchanges (network w) directory) with
  | Some rows =>
      exists w',
        for_each (reconcile_plant fromisoformat) directory w = (Ok tt, w')
        /\ committed w' = committed w
        /\ session w'
           = with_forecasts (upserts rows (forecasts (session w))) (session w)
        /\ error_log w'
           = error_log w ++ pass_statuses fromisoformat (exchanges (network w) directory)
  | None =>
      exists e w',
        for_each (reconcile_plant fromisoformat) directory w = (Raise e, w')
        /\ committed w' = committed w
  end.
Proof.
  induction directory as [|plant rest IH]; intro w.
  - cbn. exists w. unfold ret. rewrite app_nil_r.
    destruct w as [cm [us ps fs perf] log net]. auto.
  - rewrite exchanges_cons. cbn [pass_rows pass_statuses for_each].
    pose proof (reconcile_plant_cases plant w) as Hplant.
    destruct (classify fromisoformat plant (network w 0%nat)) as [status_code|rows|].
    + rewrite (bind_ok _ _ _ _ _ Hplant).
      specialize (IH (mkworld (committed w) (session w)
                              (error_log w ++ [status_code])
                              (fun k => network w (S k)))).
      cbn [network committed session error_log] in IH.
      destruct (pass_rows fromisoformat (exchanges (fun k => network w (S k)) rest)) as [rows'|].
      * destruct IH as (w' & Hrun & Hc & Hs & Hl). exists w'.
        rewrite Hl, <- app_assoc. auto.
      * exact IH.
    + rewrite (bind_ok _ _ _ _ _ Hplant).
      specialize (IH (mkworld (committed w)
                              (with_forecasts
                                 (upserts rows (forecasts (session w)))
                                 (session w))
                              (error_log w) (fun k => network w (S k)))).
      cbn [network committed session error_log] in IH.
      destruct (pass_rows fromisoformat (exchanges (fun k => network w (S k)) rest)) as [rows'|].
      * destruct IH as (w' & Hrun & Hc & Hs & Hl). exists w'.
        rewrite upserts_app. auto.
      * exact IH.
    + destruct Hplant as (e & w' & Hr & Hc).
      rewrite (bind_raise _ _ _ _ _ Hr). eauto.
Qed.

(** One reconcile pass, as a function of the exchanges. *)
Lemma run_update_forecast_data net db :
  match pass_rows fromisoformat (exchanges net (plants db)) with
  | Some rows =>
      run net (update_forecast_data fromisoformat) db
      = (Ok tt, with_forecasts (upserts rows (forecasts db)) db)
      /\ logged net (update_forecast_data fromisoformat) db
         = pass_statuses fromisoformat (exchanges net (plants db))
  | None =>
      exists e, run net (update_forecast_data fromisoformat) db = (Raise e, db)
  end.
Proof.
  unfold run, logged, update_forecast_data.
  rewrite (bind_ok _ _ _ _ _ (eq_refl : Plant_query_all (start net db) = _)).
  pose proof (for_each_reconcile_plant (plants db) (start net db)) as Hloop.
  cbn [start network committed session error_log plants] in *.
  destruct (pass_rows fromisoformat (exchanges net (plants db))) as [rows|].
  - destruct Hloop as (w' & Hrun & Hc & Hs & Hl).
    rewrite (bind_ok _ _ _ _ _ Hrun). unfold db_session_commit.
    cbn [fst snd committed error_log]. rewrite Hs, Hl. auto.
  - destruct Hloop as (e & w' & Hrun & Hc).
    rewrite (bind_raise _ _ _ _ _ Hrun). cbn [fst snd]. rewrite Hc. eauto.
Qed.

End ReconcileFacts.

(** ** The provider client *)

(** C5 as stated fails twice: a response with status 500 makes the
    fetch return [None], not fail; and a 200 response one of whose
    entries lacks [ghi] is returned whole. *)
Lemma C5_counterexample :
  (non_success (net_first_500 0%nat)
   /\ fst (get_solcast_forecast 6.9%R 79.8%R (start net_first_500 two_plant_db))
      = Ok None)
  /\ (non_success (net_second_malformed 1%nat)
      /\ fst (get_solcast_forecast 7.3%R 80.6%R
                 (start (fun k => net_second_malformed (S k)) two_plant_db))
         = Ok (Some [point_without_ghi])).
Proof.
  split; split; try reflexivity.
  - left. lia.
  - right; right; right. exists [point_without_ghi], point_without_ghi.
    split; [reflexivity|]. split; [now left|]. right; now left.
Qed.

(** C5, amended. A request that gets no response makes the fetch raise
    the transport's exception. A response whose status is not 200
    (other 2xx included) makes it log the status and return [None]
    without raising. A 200 response makes it raise when the body is not
    JSON or has no [forecasts] entry, and otherwise return that entry as
    it is, without looking into the points. The fetch writes nothing to
    the store. *)
Theorem C5_fetch_outcomes latitude longitude w :
  let r := get_solcast_forecast latitude longitude w in
  committed (snd r) = committed w
  /\ session (snd r) = session w
  /\ match network w 0%nat with
     | ConnectionFailed => fst r = Raise RequestException
     | HttpResponse status_code body =>
         if status_code =? 200
         then match body with
              | NotJSON => fst r = Raise JSONDecodeError
              | JSONObject None => fst r = Raise (KeyError "forecasts")
              | JSONObject (Some l) => fst r = Ok (Some l)
              end
         else fst r = Ok None
              /\ error_log (snd r) = error_log w ++ [status_code]
     end.
Proof.
  cbv zeta. rewrite get_solcast_forecast_cases. cbv zeta.
  destruct (network w 0%nat) as [|status_code body]; [auto|].
  destruct (status_code =? 200); [|auto].
  destruct body as [|[l|]]; auto.
Qed.

(** ** The reconcile pass *)

Section ReconcileTheorems.

Variable fromisoformat : string -> option datetime.

Lemma classify_not_aborted plant o :
  http_failure o \/ clean_answer fromisoformat plant o ->
  classify fromisoformat plant o <> Aborted.
Proof.
  intros [(status_code & body & -> & Hsc) | (l & rows & -> & Hrows)]; simpl.
  - apply Z.eqb_neq in Hsc. now rewrite Hsc.
  - now rewrite Hrows.
Qed.

Lemma classify_skipped plant o status_code :
  classify fromisoformat plant o = Skipped status_code ->
  answered_200 o = false /\ status_of o = status_code.
Proof.
  destruct o as [|sc body]; simpl; [discriminate|].
  destruct (sc =? 200); [|intro H; injection H as <-; auto].
  destruct body as [|[l|]]; try discriminate.
  destruct (decode_all fromisoformat (Plant.id plant) l); discriminate.
Qed.

Lemma classify_reconciled plant o rows :
  classify fromisoformat plant o = Reconciled rows -> answered_200 o = true.
Proof.
  destruct o as [|sc body]; simpl; [discriminate|].
  destruct (sc =? 200); [reflexivity|discriminate].
Qed.

(** Without an aborting exchange the pass reconciles exactly the rows
    of the exchanges that were answered with 200, and logs the status
    of the others. *)
Lemma pass_without_abort exs :
  Forall (fun ex => classify fromisoformat (fst ex) (snd ex) <> Aborted) exs ->
  exists rows,
    pass_rows fromisoformat exs = Some rows
    /\ pass_rows fromisoformat (filter (fun ex => answered_200 (snd ex)) exs)
       = Some rows
    /\ pass_statuses fromisoformat exs
       = map (fun ex => status_of (snd ex))
             (filter (fun ex => negb (answered_200 (snd ex))) exs).
Proof.
  induction 1 as [|[plant o] exs Hex _ (rows' & IH1 & IH2 & IH3)].
  - exists []. auto.
  - cbn [fst snd] in Hex. cbn [pass_rows pass_statuses filter snd].
    destruct (classify fromisoformat plant o) as [status_code|rows|] eqn:Hc;
      [| |congruence].
    + apply classify_skipped in Hc as [-> <-]. cbn [negb map snd].
      exists rows'. rewrite IH1, IH3. auto.
    + pose proof (classify_reconciled _ _ _ Hc) as ->. cbn [negb pass_rows].
      exists (rows ++ rows'). rewrite Hc, IH1, IH2. auto.
Qed.

(** C2. Running the reconcile pass a second time, against the same
    provider answers, ends with the same outcome and leaves every
    stored row exactly as the first run left it. *)
Theorem C2_reconcile_twice_is_once net db :
  run net (update_forecast_data fromisoformat)
      (snd (run net (update_forecast_data fromisoformat) db))
  = run net (update_forecast_data fromisoformat) db.
Proof.
  pose proof (run_update_forecast_data fromisoformat net db) as Hfirst.
  destruct (pass_rows fromisoformat (exchanges net (plants db)))
    as [rows|] eqn:Hrows.
  - destruct Hfirst as [Hfirst _]. rewrite Hfirst. cbn [snd].
    pose proof (run_update_forecast_data fromisoformat net
                  (with_forecasts (upserts rows (forecasts db)) db)) as Hsecond.
    cbn [plants with_forecasts forecasts] in Hsecond.
    rewrite Hrows in Hsecond. destruct Hsecond as [-> _].
    now rewrite upserts_idempotent.
  - destruct Hfirst as [e Hfirst]. rewrite Hfirst. cbn [snd]. exact Hfirst.
Qed.

Lemma unique_keys_after_pass net db :
  unique_keys (forecasts db) ->
  unique_keys (forecasts (snd (run net (update_forecast_data fromisoformat) db))).
Proof.
  intro Huniq.
  pose proof (run_update_forecast_data fromisoformat net db) as Hrun.
  destruct (pass_rows fromisoformat (exchanges net (plants db))) as [rows|].
  - destruct Hrun as [-> _]. cbn [snd forecasts with_forecasts].
    now apply unique_keys_upserts.
  - destruct Hrun as [e ->]. exact Huniq.
Qed.

(** C3. Key uniqueness is an invariant of the forecast store: a store
    without rows holds at most one row per (plant, timestamp) after any
    sequence of reconcile calls, whatever the provider answers, entries
    with equal timestamps included; and so does any store that held at
    most one row per (plant, timestamp) before. *)
Theorem C3_key_uniqueness_invariant :
  (forall nets db,
     unique_keys
       (forecasts (reconcile_calls fromisoformat nets (with_forecasts [] db))))
  /\ (forall nets db,
        unique_keys (forecasts db) ->
        unique_keys (forecasts (reconcile_calls fromisoformat nets db))).
Proof.
  assert (Hstep : forall nets db,
            unique_keys (forecasts db) ->
            unique_keys (forecasts (reconcile_calls fromisoformat nets db))).
  { induction nets as [|net nets IH]; intros db Huniq.
    - exact Huniq.
    - cbn [reconcile_calls fold_left]. apply IH.
      now apply unique_keys_after_pass. }
  split; [|exact Hstep].
  intros nets db. apply Hstep. constructor.
Qed.

(** C4, amended. When every exchange of the pass either fails with an
    HTTP status other than 200 or is answered with 200 and a list of
    complete points, the pass is not aborted: it commits, for the plants
    that were answered, exactly the rows it would commit if the failing
    plants were not in the directory, and logs the status of each
    failing exchange. *)
Theorem C4_http_failures_are_isolated net db :
  Forall (fun ex => http_failure (snd ex)
                    \/ clean_answer fromisoformat (fst ex) (snd ex))
         (exchanges net (plants db)) ->
  exists rows,
    pass_rows fromisoformat
      (filter (fun ex => answered_200 (snd ex)) (exchanges net (plants db)))
    = Some rows
    /\ run net (update_forecast_data fromisoformat) db
       = (Ok tt, with_forecasts (upserts rows (forecasts db)) db)
    /\ logged net (update_forecast_data fromisoformat) db
       = map (fun ex => status_of (snd ex))
             (filter (fun ex => negb (answered_200 (snd ex)))
                     (exchanges net (plants db))).
Proof.
  intro Hexs.
  assert (Hclean : Forall (fun ex => classify fromisoformat (fst ex) (snd ex)
                                     <> Aborted)
                          (exchanges net (plants db))).
  { eapply Forall_impl; [|exact Hexs].
    intros [plant o]. apply classify_not_aborted. }
  destruct (pass_without_abort _ Hclean) as (rows & Hrows & Hfiltered & Hlog).
  pose proof (run_update_forecast_data fromisoformat net db) as Hrun.
  rewrite Hrows in Hrun. destruct Hrun as [Hrun Hlogged].
  exists rows. rewrite Hrun, Hlogged, Hlog. auto.
Qed.

End ReconcileTheorems.

Lemma C3_key_uniqueness_invariant_witness :
  unique_keys (forecasts two_plant_db)
  /\ unique_keys
       (forecasts (reconcile_calls demo_fromisoformat
                     [net_duplicates; net_first_500; net_duplicates]
                     two_plant_db)).
Proof.
  assert (Hempty : unique_keys (forecasts two_plant_db)) by constructor.
  split; [exact Hempty|].
  exact (proj2 (C3_key_uniqueness_invariant demo_fromisoformat)
           [net_duplicates; net_first_500; net_duplicates] two_plant_db Hempty).
Defined.

(** Of two entries for one timestamp the later one is stored, once. *)
Example duplicates_last_entry_wins :
  map (fun f => (Forecast.id f, key f, Forecast.ghi f))
      (forecasts (snd (run net_duplicates
                           (update_forecast_data demo_fromisoformat)
                           two_plant_db)))
  = [(1, (1, 1641601800000000), 480%R); (2, (2, 1641601800000000), 480%R)].
Proof. reflexivity. Qed.

(** A 2xx status other than 200 is skipped like any other failure. *)
Example status_204_is_skipped :
  run (fun _ => HttpResponse 204 (JSONObject (Some [point_0030])))
      (update_forecast_data demo_fromisoformat) two_plant_db
  = (Ok tt, two_plant_db)
  /\ logged (fun _ => HttpResponse 204 (JSONObject (Some [point_0030])))
            (update_forecast_data demo_fromisoformat) two_plant_db
     = [204; 204].
Proof. split; reflexivity. Qed.

(** C4 as stated fails: when the second of two plants is answered with
    an entry that lacks a key while the first is answered well, the
    pass is aborted by the [KeyError], and the row of the first plant,
    though reconciled in the session, is never committed. *)
Lemma C4_counterexample :
  nth_error (plants two_plant_db) 1%nat = Some second_plant
  /\ classify demo_fromisoformat second_plant (net_second_malformed 1%nat)
     = Aborted
  /\ (exists row,
        classify demo_fromisoformat scenario_plant (net_second_malformed 0%nat)
        = Reconciled [row])
  /\ run net_second_malformed (update_forecast_data demo_fromisoformat)
         two_plant_db
     = (Raise (KeyError "ghi"), two_plant_db)
  /\ forecasts two_plant_db = [].
Proof.
  split; [reflexivity|]. split; [reflexivity|].
  split; [eexists; reflexivity|]. split; reflexivity.
Qed.

Lemma C4_http_failures_are_isolated_witness :
  Forall (fun ex => http_failure (snd ex)
                    \/ clean_answer demo_fromisoformat (fst ex) (snd ex))
         (exchanges net_first_500 (plants two_plant_db))
  /\ exists rows,
       pass_rows demo_fromisoformat
         (filter (fun ex => answered_200 (snd ex))
                 (exchanges net_first_500 (plants two_plant_db)))
       = Some rows
       /\ run net_first_500 (update_forecast_data demo_fromisoformat) two_plant_db
          = (Ok tt, with_forecasts (upserts rows (forecasts two_plant_db))
                                   two_plant_db)
       /\ logged net_first_500 (update_forecast_data demo_fromisoformat)
                 two_plant_db
          = map (fun ex => status_of (snd ex))
                (filter (fun ex => negb (answered_200 (snd ex)))
                        (exchanges net_first_500 (plants two_plant_db))).
Proof.
  assert (Hexs : Forall (fun ex => http_failure (snd ex)
                    \/ clean_answer demo_fromisoformat (fst ex) (snd ex))
         (exchanges net_first_500 (plants two_plant_db))).
  { apply Forall_cons; [|apply Forall_cons; [|apply Forall_nil]].
    - left. exists 500, NotJSON. split; [reflexivity|lia].
    - right. eexists; eexists. split; reflexivity. }
  split; [exact Hexs|].
  exact (C4_http_failures_are_isolated demo_fromisoformat net_first_500
           two_plant_db Hexs).
Defined.

(** ** The read endpoints *)

Section OrderFacts.
Context {A : Type}.
Variable before : A -> A -> bool.

Lemma in_insert_by x a l : In x (insert_by before a l) <-> x = a \/ In x l.
Proof.
  induction l as [|y l IH]; simpl.
  - intuition congruence.
  - destruct (before a y); simpl; [intuition congruence|].
    rewrite IH. intuition congruence.
Qed.

Lemma in_order_by x l : In x (order_by before l) <-> In x l.
Proof.
  induction l as [|y l IH]; simpl; [tauto|].
  rewrite in_insert_by, IH. intuition congruence.
Qed.

End OrderFacts.

Lemma in_firstn {A} n (x : A) : forall l, In x (firstn n l) -> In x l.
Proof.
  induction n as [|n IH]; intros [|y l]; simpl; try tauto.
  intros [->|H]; [now left | right; now apply IH].
Qed.

Section EndpointTheorems.

Variable datetime_isoformat : datetime -> string.
Variable date_isoformat : date -> string.

Lemma Plant_query_first_some user_id plant_name db plant :
  Plant_query_first user_id plant_name db = Some plant ->
  In plant (plants db)
  /\ Plant.user_id plant = user_id /\ Plant.name plant = plant_name.
Proof.
  unfold Plant_query_first. intro H. apply find_some in H as [Hin Hcond].
  apply andb_true_iff in Hcond as [Hu Hn].
  apply Z.eqb_eq in Hu. apply String.eqb_eq in Hn. auto.
Qed.

Lemma Plant_query_first_none user_id plant_name db :
  (forall plant, In plant (plants db) -> Plant.user_id plant = user_id ->
                 Plant.name plant <> plant_name) ->
  Plant_query_first user_id plant_name db = None.
Proof.
  intro Hnone.
  destruct (Plant_query_first user_id plant_name db) as [plant|] eqn:H;
    [|reflexivity].
  apply Plant_query_first_some in H as (Hin & Hu & Hn).
  now destruct (Hnone plant Hin Hu).
Qed.

(** C10. For a request that carries an accepted token: whatever the
    forecast or the performance endpoint returns as data is built from
    rows of one plant that has the requested name and is owned by the
    user the token names; and if that user owns no plant of that name,
    be there one of that name owned by somebody else or not, both
    endpoints answer 404 "Plant not found". *)
Theorem C10_reads_are_scoped_to_owner current_user plant_name db :
  (forall status items,
     get_forecast datetime_isoformat current_user plant_name db
     = ForecastData status items ->
     exists user plant,
       User_query_first current_user db = Some user
       /\ In plant (plants db)
       /\ Plant.user_id plant = User.id user
       /\ Plant.name plant = plant_name
       /\ forall item, In item items ->
            exists f, In f (forecasts db)
                      /\ Forecast.plant_id f = Plant.id plant
                      /\ item = forecast_item datetime_isoformat f)
  /\ (forall status items,
        get_performance date_isoformat current_user plant_name db
        = PerformanceData status items ->
        exists user plant,
          User_query_first current_user db = Some user
          /\ In plant (plants db)
          /\ Plant.user_id plant = User.id user
          /\ Plant.name plant = plant_name
          /\ forall item, In item items ->
               exists p, In p (performances db)
                         /\ PlantPerformance.plant_id p = Plant.id plant
                         /\ item = performance_item date_isoformat p)
  /\ (forall user,
        User_query_first current_user db = Some user ->
        (forall plant, In plant (plants db) ->
                       Plant.user_id plant = User.id user ->
                       Plant.name plant <> plant_name) ->
        get_forecast datetime_isoformat current_user plant_name db
        = Message 404 "Plant not found"
        /\ get_performance date_isoformat current_user plant_name db
           = Message 404 "Plant not found").
Proof.
  unfold get_forecast, get_performance.
  destruct (User_query_first current_user db) as [user|];
    [|repeat split; discriminate].
  split; [|split].
  - intros status items.
    destruct (Plant_query_first (User.id user) plant_name db) as [plant|] eqn:Hp;
      [|discriminate].
    intro H; injection H as _ <-.
    apply Plant_query_first_some in Hp as (Hin & Hu & Hn).
    exists user, plant. repeat split; try assumption.
    intros item Hitem. apply in_map_iff in Hitem as (f & <- & Hf).
    apply in_order_by, filter_In in Hf as [Hf Hid]. apply Z.eqb_eq in Hid.
    exists f. auto.
  - intros status items.
    destruct (Plant_query_first (User.id user) plant_name db) as [plant|] eqn:Hp;
      [|discriminate].
    cbv zeta. remember (firstn 30 _) as rows eqn:Hrows.
    intro H; injection H as _ <-.
    apply Plant_query_first_some in Hp as (Hin & Hu & Hn).
    exists user, plant. repeat split; try assumption.
    intros item Hitem. apply in_map_iff in Hitem as (p & <- & Hp).
    rewrite Hrows in Hp.
    apply in_firstn, in_order_by, filter_In in Hp as [Hp Hid].
    apply Z.eqb_eq in Hid. exists p. auto.
  - intros user' Huser Hnone. injection Huser as <-.
    now rewrite (Plant_query_first_none _ _ _ Hnone).
Qed.

End EndpointTheorems.

Lemma C10_reads_are_scoped_to_owner_witness :
  User_query_first "ann" shared_db = Some (User.mk 1 "ann" "pw")
  /\ get_forecast demo_datetime_isoformat "ann" "alpha" shared_db
     = Message 404 "Plant not found"
  /\ get_performance demo_date_isoformat "ann" "alpha" shared_db
     = Message 404 "Plant not found".
Proof.
  assert (Huser : User_query_first "ann" shared_db = Some (User.mk 1 "ann" "pw"))
    by reflexivity.
  split; [exact Huser|].
  apply (proj2 (proj2 (C10_reads_are_scoped_to_owner demo_datetime_isoformat
                         demo_date_isoformat "ann" "alpha" shared_db))
           (User.mk 1 "ann" "pw") Huser).
  intros plant [<-|[]] Howner. discriminate Howner.
Defined.

(** The owner reads the rows of the plant; an identity without a user
    row reads nothing. *)
Example owner_reads_forecasts :
  get_forecast demo_datetime_isoformat "bob" "alpha" shared_db
  = ForecastData 200
      [ForecastItem.mk "2022-01-08T00:30:00" 500%R 600%R 100%R 25%R 10%R].
Proof. reflexivity. Qed.

Example owner_reads_performance :
  get_performance demo_date_isoformat "bob" "alpha" shared_db
  = PerformanceData 200 [PerformanceItem.mk "2022-01-08" (-0.3)%R].
Proof. reflexivity. Qed.

Example unknown_identity_reads_nothing :
  get_forecast demo_datetime_isoformat "eve" "alpha" shared_db
  = Message 404 "User not found".
Proof. reflexivity. Qed.

(** * Further properties of the code *)

(** ** What a reconcile pass keeps and what it writes *)

Lemma identity_upsert r fs :
  exists added,
    map row_identity (upsert r fs) = map row_identity fs ++ added.
Proof.
  rewrite upsert_cases. destruct (present (key r) fs).
  - exists []. rewrite app_nil_r. apply map_update_first. reflexivity.
  - eexists. rewrite map_app. reflexivity.
Qed.

Lemma identity_upserts rows : forall fs,
  exists added,
    map row_identity (upserts rows fs) = map row_identity fs ++ added.
Proof.
  induction rows as [|r rows IH]; intro fs.
  - exists []. now rewrite app_nil_r.
  - rewrite upserts_cons.
    destruct (IH (upsert r fs)) as [added2 H2].
    destruct (identity_upsert r fs) as [added1 H1].
    exists (added1 ++ added2). now rewrite H2, H1, app_assoc.
Qed.

Lemma find_update_first_same {A} (p : A -> bool) (g : A -> A) (l : list A) :
  (forall x, p (g x) = p x) ->
  find p (update_first p g l) = option_map g (find p l).
Proof.
  intro Hp. induction l as [|x l IH]; simpl; [reflexivity|].
  destruct (p x) eqn:Hx; simpl.
  - now rewrite Hp, Hx.
  - now rewrite Hx, IH.
Qed.

Lemma find_update_first_other {A} (p q : A -> bool) (g : A -> A) (l : list A) :
  (forall x, q x = true -> p x = false) ->
  (forall x, p (g x) = p x) ->
  find p (update_first q g l) = find p l.
Proof.
  intros Hdisj Hp. induction l as [|x l IH]; simpl; [reflexivity|].
  destruct (q x) eqn:Hq; simpl.
  - now rewrite Hp, (Hdisj x Hq).
  - now rewrite IH.
Qed.

Lemma find_app_absent {A} (p : A -> bool) (l r : list A) :
  existsb p l = false -> find p (l ++ r) = find p r.
Proof.
  induction l as [|x l IH]; simpl; [reflexivity|].
  destruct (p x); simpl; [discriminate|exact IH].
Qed.

Lemma find_app_present {A} (p : A -> bool) (l r : list A) :
  existsb p l = true -> find p (l ++ r) = find p l.
Proof.
  induction l as [|x l IH]; simpl; [discriminate|].
  destruct (p x); simpl; [reflexivity|exact IH].
Qed.

Lemma find_absent {A} (p : A -> bool) (l : list A) :
  existsb p l = false -> find p l = None.
Proof.
  induction l as [|x l IH]; simpl; [reflexivity|].
  destruct (p x); simpl; [discriminate|exact IH].
Qed.

(** Right after its write, a point is what the lookup of its key finds. *)
Lemma stored_at_upsert_same r fs :
  exists f, stored_at (key r) (upsert r fs) = Some f
            /\ key f = key r /\ measures f = measures r.
Proof.
  unfold stored_at. rewrite upsert_cases.
  destruct (present (key r) fs) eqn:Hp.
  - unfold refresh.
    rewrite find_update_first_same by (intro; apply has_key_overwrite).
    destruct (find (has_key (key r)) fs) as [f|] eqn:Hf.
    + apply find_some in Hf as [_ Hk]. apply has_key_true in Hk.
      exists (overwrite r f). repeat split. exact Hk.
    + unfold present in Hp.
      apply existsb_exists in Hp as (x & Hx & Hkx).
      now rewrite (find_none _ _ Hf x Hx) in Hkx.
  - unfold present in Hp. rewrite find_app_absent by exact Hp.
    simpl. rewrite has_key_with_id. eexists. repeat split.
Qed.

(** A write to another key leaves the lookup as it was. *)
Lemma stored_at_upsert_other k r fs :
  key r <> k -> stored_at k (upsert r fs) = stored_at k fs.
Proof.
  intro Hk. unfold stored_at. rewrite upsert_cases.
  destruct (present (key r) fs) eqn:Hp.
  - unfold refresh. apply find_update_first_other.
    + intros x Hx. apply has_key_true in Hx. apply has_key_false. congruence.
    + intro; apply has_key_overwrite.
  - destruct (existsb (has_key k) fs) eqn:Hex.
    + now apply find_app_present.
    + rewrite find_app_absent by exact Hex. simpl.
      assert (Hw : has_key k (with_id (next_id (map Forecast.id fs)) r) = false)
        by (apply has_key_false; exact Hk).
      rewrite Hw. symmetry. now apply find_absent.
Qed.

Lemma stored_at_upserts_other k rows : forall fs,
  present k rows = false -> stored_at k (upserts rows fs) = stored_at k fs.
Proof.
  induction rows as [|r rows IH]; intros fs Hrows; [reflexivity|].
  unfold present in Hrows; simpl in Hrows. apply orb_false_iff in Hrows.
  destruct Hrows as [Hr Hrows]. apply has_key_false in Hr.
  rewrite upserts_cons, IH by exact Hrows.
  now apply stored_at_upsert_other.
Qed.

Lemma in_update_first_other {A} (p : A -> bool) (g : A -> A) (x : A) (l : list A) :
  p x = false -> In x l -> In x (update_first p g l).
Proof.
  intro Hx. induction l as [|y l IH]; simpl; [tauto|].
  intros [->|Hin].
  - rewrite Hx. now left.
  - destruct (p y); [now right | right; now apply IH].
Qed.

Lemma in_upsert_other f r fs :
  key f <> key r -> In f fs -> In f (upsert r fs).
Proof.
  intros Hk Hin. rewrite upsert_cases. destruct (present (key r) fs).
  - apply in_update_first_other; [now apply has_key_false | exact Hin].
  - apply in_or_app. now left.
Qed.

Lemma in_upserts_other f rows : forall fs,
  present (key f) rows = false -> In f fs -> In f (upserts rows fs).
Proof.
  induction rows as [|r rows IH]; intros fs Hrows Hin; [exact Hin|].
  unfold present in Hrows; simpl in Hrows. apply orb_false_iff in Hrows.
  destruct Hrows as [Hr Hrows]. apply has_key_false in Hr.
  rewrite upserts_cons. apply IH; [exact Hrows|].
  apply in_upsert_other; [congruence | exact Hin].
Qed.

Section ReconcileCoverage.

Variable fromisoformat : string -> option datetime.

(** X1. A reconcile pass is all or nothing: when it raises, the
    durable database is exactly what it was; and in every case the
    users, the plants and the performance ledger are left as they
    were. *)
Theorem reconcile_pass_all_or_nothing net db :
  (forall e,
     fst (run net (update_forecast_data fromisoformat) db) = Raise e ->
     snd (run net (update_forecast_data fromisoformat) db) = db)
  /\ users (snd (run net (update_forecast_data fromisoformat) db)) = users db
  /\ plants (snd (run net (update_forecast_data fromisoformat) db)) = plants db
  /\ performances (snd (run net (update_forecast_data fromisoformat) db))
     = performances db.
Proof.
  pose proof (run_update_forecast_data fromisoformat net db) as Hrun.
  destruct (pass_rows fromisoformat (exchanges net (plants db))) as [rows|].
  - destruct Hrun as [-> _]. cbn [fst snd]. repeat split. discriminate.
  - destruct Hrun as [e ->]. cbn [fst snd]. auto.
Qed.

(** X2. A reconcile pass never deletes, moves or re-keys a stored row:
    the primary keys and lookup keys of the rows it leaves are those of
    the rows it found, in the same order, followed by those of the rows
    it added. *)
Theorem reconcile_pass_never_deletes net db :
  exists added,
    map row_identity
        (forecasts (snd (run net (update_forecast_data fromisoformat) db)))
    = map row_identity (forecasts db) ++ added.
Proof.
  pose proof (run_update_forecast_data fromisoformat net db) as Hrun.
  destruct (pass_rows fromisoformat (exchanges net (plants db))) as [rows|].
  - destruct Hrun as [-> _]. cbn [snd forecasts with_forecasts].
    apply identity_upserts.
  - destruct Hrun as [e ->]. exists []. now rewrite app_nil_r.
Qed.

(** X3. Last write wins: when the pass is not aborted, the row that the
    lookup of a point's (plant, timestamp) finds in the committed store
    carries the five measures of the last point of the pass with that
    key. *)
Theorem reconciled_point_is_stored net db earlier r later :
  pass_rows fromisoformat (exchanges net (plants db))
  = Some (earlier ++ r :: later) ->
  present (key r) later = false ->
  exists f,
    stored_at (key r)
      (forecasts (snd (run net (update_forecast_data fromisoformat) db)))
    = Some f
    /\ key f = key r /\ measures f = measures r.
Proof.
  intros Hrows Hlast.
  pose proof (run_update_forecast_data fromisoformat net db) as Hrun.
  rewrite Hrows in Hrun. destruct Hrun as [-> _].
  cbn [snd forecasts with_forecasts].
  rewrite upserts_app, upserts_cons, stored_at_upserts_other by exact Hlast.
  apply stored_at_upsert_same.
Qed.

(** X4. A stored row whose (plant, timestamp) is not among the points
    of the pass is still in the store, unchanged, after the pass. *)
Theorem unmentioned_rows_are_untouched net db rows f :
  pass_rows fromisoformat (exchanges net (plants db)) = Some rows ->
  In f (forecasts db) ->
  present (key f) rows = false ->
  In f (forecasts (snd (run net (update_forecast_data fromisoformat) db))).
Proof.
  intros Hrows Hin Hkey.
  pose proof (run_update_forecast_data fromisoformat net db) as Hrun.
  rewrite Hrows in Hrun. destruct Hrun as [-> _].
  cbn [snd forecasts with_forecasts].
  now apply in_upserts_other.
Qed.

End ReconcileCoverage.

(** ** How one provider entry fails *)

Lemma find_index_find {A} (p : A -> bool) (l : list A) :
  find_index p l = None <-> find p l = None.
Proof.
  rewrite find_index_existsb. split.
  - apply find_absent.
  - intro Hf. destruct (existsb p l) eqn:Hex; [|reflexivity].
    apply existsb_exists in Hex as (x & Hx & Hpx).
    now rewrite (find_none _ _ Hf x Hx) in Hpx.
Qed.

Section PointCoverage.

Variable fromisoformat : string -> option datetime.

(** X5. An entry without [period_end] raises [KeyError], one whose
    timestamp does not parse raises [ValueError], and one that lacks a
    measure while no row is stored for its (plant, timestamp) raises
    [KeyError] for the first measure it lacks; in all three cases the
    session is left exactly as it was. *)
Theorem undecodable_entry_adds_nothing plant data w :
  (Point.period_end data = None ->
   reconcile_point fromisoformat plant data w
   = (Raise (KeyError "period_end"), w))
  /\ (forall s,
        Point.period_end data = Some s -> fromisoformat s = None ->
        reconcile_point fromisoformat plant data w = (Raise ValueError, w))
  /\ (forall s ts k,
        Point.period_end data = Some s -> fromisoformat s = Some ts ->
        stored_at (Plant.id plant, ts) (forecasts (session w)) = None ->
        first_missing_measure data = Some k ->
        reconcile_point fromisoformat plant data w = (Raise (KeyError k), w)).
Proof.
  destruct data as [pe g n h a c]. cbn [Point.period_end].
  unfold reconcile_point, bind, getitem, parse_timestamp, ret, raise,
    Forecast_query_first.
  cbn [Point.period_end Point.ghi Point.dni Point.dhi Point.air_temp
       Point.cloud_opacity].
  split; [|split].
  - now intros ->.
  - intros s -> Hiso. now rewrite Hiso.
  - intros s ts k -> Hiso Hstored Hmiss. rewrite Hiso.
    apply find_index_find in Hstored.
    change (has_key (Plant.id plant, ts)) with (same_key (Plant.id plant) ts)
      in Hstored.
    rewrite Hstored.
    unfold first_missing_measure in Hmiss.
    cbn [Point.ghi Point.dni Point.dhi Point.air_temp Point.cloud_opacity]
      in Hmiss.
    destruct g, n, h, a, c; inversion Hmiss; reflexivity.
Qed.

(** X6. The update path assigns field by field: when a row is stored
    for the entry's (plant, timestamp), and the entry has [ghi] but
    lacks [dni], the [KeyError] for [dni] is raised after the row's
    [ghi] has been overwritten in the session; the durable rows are not
    touched. *)
Theorem update_path_assigns_before_it_fails plant data w s ts i v :
  Point.period_end data = Some s ->
  fromisoformat s = Some ts ->
  find_index (same_key (Plant.id plant) ts) (forecasts (session w)) = Some i ->
  Point.ghi data = Some v ->
  Point.dni data = None ->
  reconcile_point fromisoformat plant data w
  = (Raise (KeyError "dni"),
     set_forecasts (modify_nth i (Forecast.set_ghi v) (forecasts (session w))) w)
  /\ committed (snd (reconcile_point fromisoformat plant data w)) = committed w.
Proof.
  destruct data as [pe g n h a c].
  cbn [Point.period_end Point.ghi Point.dni].
  intros -> Hiso Hfind -> ->.
  unfold reconcile_point, bind, getitem, parse_timestamp, ret, raise,
    Forecast_query_first, setattr, on_session.
  cbn [Point.period_end Point.ghi Point.dni Point.dhi Point.air_temp
       Point.cloud_opacity].
  rewrite Hiso, Hfind. split; reflexivity.
Qed.

End PointCoverage.

(** ** The day window *)

(** X7. The window of the estimation query is the calendar day: a
    timestamp is in the window of [today] exactly when its date is
    [today], so every stored row counts for one day and one day only,
    and the rows the query returns for a plant are exactly the plant's
    rows of that date. *)
Theorem day_window_is_the_date today :
  (forall ts, in_day today ts = true <-> ts / usec_per_day = today)
  /\ (forall plant fs f,
        In f (day_forecasts plant today fs)
        <-> In f fs
            /\ Forecast.plant_id f = Plant.id plant
            /\ Forecast.timestamp f / usec_per_day = today).
Proof.
  assert (Hday : forall ts, in_day today ts = true <-> ts / usec_per_day = today).
  { intro ts. unfold in_day, midnight, add_days, usec_per_day.
    rewrite andb_true_iff, Z.leb_le, Z.ltb_lt. split.
    - intros [Hlo Hhi]. symmetry.
      apply (Z.div_unique_pos ts 86400000000 today (ts - today * 86400000000));
        lia.
    - intros <-.
      pose proof (Z.div_mod ts 86400000000 ltac:(lia)) as Hdm.
      pose proof (Z.mod_pos_bound ts 86400000000 ltac:(lia)) as Hb.
      lia. }
  split; [exact Hday|].
  intros plant fs f. unfold day_forecasts.
  rewrite filter_In, andb_true_iff, Z.eqb_eq, Hday. tauto.
Qed.

(** ** What the read endpoints return, and in which order *)

Section SortFacts.
Context {A : Type}.
Variable before : A -> A -> bool.
Variable R : A -> A -> Prop.
Hypothesis before_true : forall x y, before x y = true -> R x y.
Hypothesis before_false : forall x y, before x y = false -> R y x.
Hypothesis R_trans : forall x y z, R x y -> R y z -> R x z.

Lemma insert_by_permutation x l : Permutation (insert_by before x l) (x :: l).
Proof.
  induction l as [|y l IH]; simpl; [reflexivity|].
  destruct (before x y); [reflexivity|].
  rewrite IH. apply perm_swap.
Qed.

Lemma order_by_permutation l : Permutation (order_by before l) l.
Proof.
  induction l as [|x l IH]; simpl; [reflexivity|].
  rewrite insert_by_permutation. now constructor.
Qed.

Lemma insert_by_sorted x l :
  StronglySorted R l -> StronglySorted R (insert_by before x l).
Proof.
  induction 1 as [|y l Hsorted IH Hy]; simpl.
  - repeat constructor.
  - destruct (before x y) eqn:Hxy.
    + constructor; [now constructor|].
      constructor; [now apply before_true|].
      eapply Forall_impl; [|exact Hy].
      intros z Hz. eapply R_trans; [apply before_true; exact Hxy | exact Hz].
    + constructor; [exact IH|].
      apply Forall_forall. intros z Hz.
      apply in_insert_by in Hz as [->|Hz].
      * now apply before_false.
      * rewrite Forall_forall in Hy. now apply Hy.
Qed.

Lemma order_by_sorted l : StronglySorted R (order_by before l).
Proof.
  induction l as [|x l IH]; simpl; [constructor|].
  now apply insert_by_sorted.
Qed.

End SortFacts.

Lemma sorted_app_split {A} (R : A -> A -> Prop) (l r : list A) :
  StronglySorted R (l ++ r) ->
  StronglySorted R l /\ forall a b, In a l -> In b r -> R a b.
Proof.
  induction l as [|x l IH]; simpl; intro H.
  - split; [constructor | intros a b []].
  - inversion H as [|? ? Hs Hx]; subst.
    destruct (IH Hs) as [Hl Hlr]. split.
    + constructor; [exact Hl|].
      rewrite Forall_forall in *. intros z Hz. apply Hx, in_or_app. now left.
    + intros a b [<-|Ha] Hb.
      * rewrite Forall_forall in Hx. apply Hx, in_or_app. now right.
      * now apply Hlr.
Qed.

Lemma forecasts_ordered (l : list Forecast.t) :
  StronglySorted by_timestamp (order_by (ascending Forecast.timestamp) l).
Proof.
  apply order_by_sorted; unfold ascending, by_timestamp.
  - intros x y H. now apply Z.leb_le.
  - intros x y H. apply Z.leb_gt in H. lia.
  - intros x y z. lia.
Qed.

Lemma performances_ordered (l : list PlantPerformance.t) :
  StronglySorted latest_first (order_by (descending PlantPerformance.date) l).
Proof.
  apply order_by_sorted; unfold descending, latest_first.
  - intros x y H. now apply Z.leb_le.
  - intros x y H. apply Z.leb_gt in H. lia.
  - intros x y z. lia.
Qed.

Section EndpointCoverage.

Variable datetime_isoformat : datetime -> string.
Variable date_isoformat : date -> string.

(** X8. When the forecast endpoint returns data, the status is 200 and
    the items are all the stored rows of the plant it found, each
    exactly once, in ascending order of their timestamps. *)
Theorem forecasts_served_complete_and_sorted current_user plant_name db
    status items :
  get_forecast datetime_isoformat current_user plant_name db
  = ForecastData status items ->
  status = 200
  /\ exists user plant rows,
       User_query_first current_user db = Some user
       /\ Plant_query_first (User.id user) plant_name db = Some plant
       /\ items = map (forecast_item datetime_isoformat) rows
       /\ Permutation rows
            (filter (fun f => Forecast.plant_id f =? Plant.id plant)
                    (forecasts db))
       /\ StronglySorted by_timestamp rows.
Proof.
  unfold get_forecast.
  destruct (User_query_first current_user db) as [user|]; [|discriminate].
  destruct (Plant_query_first (User.id user) plant_name db) as [plant|] eqn:Hp;
    [|discriminate].
  cbv zeta. intro H; injection H as <- <-.
  split; [reflexivity|]. exists user, plant. eexists.
  split; [reflexivity|]. split; [exact Hp|]. split; [reflexivity|].
  split; [apply order_by_permutation | apply forecasts_ordered].
Qed.

(** X9. When the performance endpoint returns data, the status is 200
    and the items are the 30 most recent ledger rows of the plant it
    found, or all of them when there are fewer, latest first: no row it
    leaves out is more recent than a row it returns. *)
Theorem performance_served_latest_thirty current_user plant_name db
    status items :
  get_performance date_isoformat current_user plant_name db
  = PerformanceData status items ->
  status = 200
  /\ exists user plant shown omitted,
       User_query_first current_user db = Some user
       /\ Plant_query_first (User.id user) plant_name db = Some plant
       /\ items = map (performance_item date_isoformat) shown
       /\ Permutation (shown ++ omitted)
            (filter (fun p => PlantPerformance.plant_id p =? Plant.id plant)
                    (performances db))
       /\ List.length shown = Nat.min 30 (List.length (shown ++ omitted))
       /\ StronglySorted latest_first shown
       /\ forall a b, In a shown -> In b omitted -> latest_first a b.
Proof.
  unfold get_performance.
  destruct (User_query_first current_user db) as [user|]; [|discriminate].
  destruct (Plant_query_first (User.id user) plant_name db) as [plant|] eqn:Hp;
    [|discriminate].
  cbv zeta.
  set (sorted := order_by (descending PlantPerformance.date)
                   (filter (fun p => PlantPerformance.plant_id p =? Plant.id plant)
                           (performances db))).
  remember (firstn 30 sorted) as shown eqn:Hshown.
  intro H; injection H as <- <-.
  split; [reflexivity|].
  exists user, plant, shown, (skipn 30 sorted).
  assert (Hsplit : shown ++ skipn 30 sorted = sorted)
    by (rewrite Hshown; apply firstn_skipn).
  pose proof (performances_ordered
                (filter (fun p => PlantPerformance.plant_id p =? Plant.id plant)
                        (performances db))) as Hsorted.
  fold sorted in Hsorted. rewrite <- Hsplit in Hsorted.
  apply sorted_app_split in Hsorted as [Hshown_sorted Hcut].
  split; [reflexivity|]. split; [exact Hp|]. split; [reflexivity|].
  split; [rewrite Hsplit; apply order_by_permutation|].
  split; [rewrite Hsplit, Hshown; apply List.length_firstn|].
  split; assumption.
Qed.

End EndpointCoverage.

(** ** Login *)

Lemma tables_after_reconcile_pass fromisoformat net db :
  users (snd (run net (update_forecast_data fromisoformat) db)) = users db
  /\ plants (snd (run net (update_forecast_data fromisoformat) db)) = plants db.
Proof.
  pose proof (run_update_forecast_data fromisoformat net db) as Hrun.
  destruct (pass_rows fromisoformat (exchanges net (plants db))) as [rows|].
  - destruct Hrun as [-> _]. split; reflexivity.
  - destruct Hrun as [e ->]. split; reflexivity.
Qed.

Lemma tables_after_reconcile_calls fromisoformat nets : forall db,
  users (reconcile_calls fromisoformat nets db) = users db
  /\ plants (reconcile_calls fromisoformat nets db) = plants db.
Proof.
  induction nets as [|net nets IH]; intro db; [split; reflexivity|].
  cbn [reconcile_calls fold_left].
  destruct (IH (snd (run net (update_forecast_data fromisoformat) db)))
    as [Hu Hp].
  destruct (tables_after_reconcile_pass fromisoformat net db) as [Hu' Hp'].
  unfold reconcile_calls in Hu, Hp. rewrite Hu, Hp. auto.
Qed.

Section LoginCoverage.

Variable token : Type.
Variable create_access_token : string -> token.

(** X10. Login grants a token, with status 200 and made for the given
    username, exactly when the request carries a username and a
    password and the password is the stored password of the first user
    row with that username; in every other case, unknown user, wrong
    password or missing key alike, the answer is the same 401 message. *)
Theorem login_grants_iff_credentials_match request_json db :
  (exists u user,
     Credentials.username request_json = Some u
     /\ User_query_first u db = Some user
     /\ Credentials.password request_json = Some (User.password user)
     /\ login token create_access_token request_json db
        = AccessToken 200 (create_access_token u))
  \/ ((forall u user,
         Credentials.username request_json = Some u ->
         User_query_first u db = Some user ->
         Credentials.password request_json <> Some (User.password user))
      /\ login token create_access_token request_json db
         = LoginMessage 401 "Bad username or password").
Proof.
  unfold login. destruct request_json as [[u|] password]; cbn.
  - destruct (User_query_first u db) as [user|] eqn:Huser.
    + destruct password as [p|]; cbn.
      * destruct (String.eqb (User.password user) p) eqn:Hp.
        -- apply String.eqb_eq in Hp. subst p. left. exists u, user. auto.
        -- apply String.eqb_neq in Hp. right. split; [|reflexivity].
           intros u' user' Hu Hq. injection Hu as <-.
           rewrite Huser in Hq. injection Hq as <-. congruence.
      * right. split; [|reflexivity]. intros; discriminate.
    + right. split; [|reflexivity].
      intros u' user' Hu Hq. injection Hu as <-. congruence.
  - right. split; [|reflexivity]. intros; discriminate.
Qed.

(** X11. The identity of a token that login has granted has a user
    row, and keeps it through any sequence of reconcile passes and an
    estimation pass: for that identity neither read endpoint answers
    "User not found". *)
Theorem granted_identity_is_served fromisoformat datetime_isoformat
    date_isoformat request_json db status access_token :
  login token create_access_token request_json db
  = AccessToken status access_token ->
  exists u,
    Credentials.username request_json = Some u
    /\ access_token = create_access_token u
    /\ forall nets net today plant_name,
         let db' :=
           snd (run net (calculate_plant_performance today)
                    (reconcile_calls fromisoformat nets db)) in
         get_forecast datetime_isoformat u plant_name db'
         <> Message 404 "User not found"
         /\ get_performance date_isoformat u plant_name db'
            <> Message 404 "User not found".
Proof.
  unfold login. destruct request_json as [[u|] password];
    cbn [Credentials.username Credentials.password]; cbv zeta;
    [|discriminate].
  destruct (User_query_first u db) as [user|] eqn:Huser; [|discriminate].
  destruct (password_matches user password); [|discriminate].
  intro H; injection H as <- <-.
  exists u. split; [reflexivity|]. split; [reflexivity|].
  intros nets net today plant_name.
  set (db' := snd (run net (calculate_plant_performance today)
                       (reconcile_calls fromisoformat nets db))).
  assert (Hsame : User_query_first u db' = Some user).
  { unfold db', User_query_first.
    rewrite run_calculate_plant_performance. cbn [snd users with_performances].
    destruct (tables_after_reconcile_calls fromisoformat nets db) as [-> _].
    exact Huser. }
  unfold get_forecast, get_performance. rewrite Hsame.
  destruct (Plant_query_first (User.id user) plant_name db');
    split; discriminate.
Qed.

End LoginCoverage.

(** ** The database location *)

Lemma prefix_app (p rest : string) : String.prefix p (p ++ rest) = true.
Proof.
  induction p as [|c p IH]; simpl.
  - now destruct rest.
  - destruct (Ascii.ascii_dec c c); [exact IH|congruence].
Qed.

Lemma string_drop_app (p rest : string) :
  string_drop (String.length p) (p ++ rest) = rest.
Proof. induction p as [|c p IH]; simpl; [reflexivity|exact IH]. Qed.

Lemma prefix_split (p : string) : forall s,
  String.prefix p s = true -> s = (p ++ string_drop (String.length p) s)%string.
Proof.
  induction p as [|c p IH]; intros s H; simpl.
  - reflexivity.
  - destruct s as [|d s]; simpl in H; [discriminate|].
    destruct (Ascii.ascii_dec c d) as [<-|]; [|discriminate].
    now rewrite <- (IH s H).
Qed.

Lemma replace_first_unfold (old new s : string) :
  replace_first old new s
  = if String.prefix old s
    then (new ++ string_drop (String.length old) s)%string
    else match s with
         | EmptyString => EmptyString
         | String c s' => String c (replace_first old new s')
         end.
Proof. destruct s; reflexivity. Qed.

Lemma replace_first_at_start (old new rest : string) :
  replace_first old new (old ++ rest) = (new ++ rest)%string.
Proof.
  rewrite replace_first_unfold, prefix_app. now rewrite string_drop_app.
Qed.

(** X12. The database location is never handed on with the scheme
    [postgres://]: a value that starts with it has that one occurrence
    replaced by [postgresql://] and the rest left as it is, any other
    value (and the default) is kept, and the result is stable under the
    same rewriting. *)
Theorem database_url_scheme env :
  String.prefix "postgres://" (database_url env) = false
  /\ (forall rest,
        database_url (Some ("postgres://" ++ rest)%string)
        = ("postgresql://" ++ rest)%string)
  /\ (forall v, String.prefix "postgres://" v = false ->
                database_url (Some v) = v)
  /\ database_url (Some (database_url env)) = database_url env.
Proof.
  assert (Hrewritten : forall rest,
            database_url (Some ("postgres://" ++ rest)%string)
            = ("postgresql://" ++ rest)%string).
  { intro rest. unfold database_url.
    rewrite prefix_app. apply replace_first_at_start. }
  assert (Hkept : forall v, String.prefix "postgres://" v = false ->
                            database_url (Some v) = v).
  { intros v Hv. unfold database_url. now rewrite Hv. }
  assert (Hnever : String.prefix "postgres://" (database_url env) = false).
  { destruct env as [v|]; [|reflexivity].
    destruct (String.prefix "postgres://" v) eqn:Hv.
    - rewrite (prefix_split _ _ Hv), Hrewritten. reflexivity.
    - now rewrite Hkept. }
  repeat split; try assumption.
  now apply Hkept.
Qed.

(** ** From a pass to the read endpoints *)

Lemma order_by_latest_last {A} (before : A -> A -> bool) (r : A) (l : list A) :
  (forall a, In a l -> before a r = false) ->
  order_by before (l ++ [r]) = r :: order_by before l.
Proof.
  induction l as [|a l IH]; intro Hl; [reflexivity|].
  cbn [app order_by fold_right].
  change (fold_right (insert_by before) [] (l ++ [r]))
    with (order_by before (l ++ [r])).
  rewrite IH by (intros b Hb; apply Hl; now right).
  cbn [insert_by]. now rewrite (Hl a (or_introl eq_refl)).
Qed.

Lemma new_records_of_plant today fs plant : forall directory ids,
  NoDup (map Plant.id directory) -> In plant directory ->
  exists i,
    filter (fun r => PlantPerformance.plant_id r =? Plant.id plant)
           (new_records today fs ids directory)
    = [PlantPerformance.mk i (Plant.id plant) today
         (total_energy plant (day_forecasts plant today fs))].
Proof.
  induction directory as [|p rest IH]; intros ids Hnodup Hin; [destruct Hin|].
  cbn [map] in Hnodup. inversion Hnodup as [|? ? Hfresh Hrest]; subst.
  cbn [new_records filter PlantPerformance.plant_id].
  destruct Hin as [->|Hin].
  - rewrite Z.eqb_refl. exists (next_id ids). f_equal.
    generalize (ids ++ [next_id ids]).
    clear IH Hnodup Hrest. induction rest as [|q rest IHr]; intro ids'.
    + reflexivity.
    + cbn [new_records filter PlantPerformance.plant_id].
      destruct (Plant.id q =? Plant.id plant) eqn:Hq.
      * apply Z.eqb_eq in Hq. exfalso. apply Hfresh. left. exact Hq.
      * apply IHr. intro H. apply Hfresh. now right.
  - destruct (Plant.id p =? Plant.id plant) eqn:Hp.
    + apply Z.eqb_eq in Hp. exfalso. apply Hfresh. rewrite Hp.
      now apply in_map.
    + now apply IH.
Qed.

Section PipelineCoverage.

Variable fromisoformat : string -> option datetime.
Variable datetime_isoformat : datetime -> string.
Variable date_isoformat : date -> string.

(** X13. What the provider last said about a timestamp is what the
    owner reads: after a reconcile pass that is not aborted, the
    forecast endpoint, asked by the plant's owner, returns data with
    status 200 that contains the item of the last point of the pass for
    each (plant, timestamp) of that plant. *)
Theorem reconciled_point_is_served net db earlier r later
    current_user plant_name user plant :
  pass_rows fromisoformat (exchanges net (plants db))
  = Some (earlier ++ r :: later) ->
  present (key r) later = false ->
  User_query_first current_user db = Some user ->
  Plant_query_first (User.id user) plant_name db = Some plant ->
  Forecast.plant_id r = Plant.id plant ->
  exists items,
    get_forecast datetime_isoformat current_user plant_name
      (snd (run net (update_forecast_data fromisoformat) db))
    = ForecastData 200 items
    /\ In (forecast_item datetime_isoformat r) items.
Proof.
  intros Hrows Hlast Huser Hplant Hid.
  pose proof (run_update_forecast_data fromisoformat net db) as Hrun.
  rewrite Hrows in Hrun. destruct Hrun as [-> _]. cbn [snd].
  set (fs' := upserts (earlier ++ r :: later) (forecasts db)).
  assert (Hstored : exists f, stored_at (key r) fs' = Some f
                              /\ key f = key r /\ measures f = measures r).
  { unfold fs'.
    rewrite upserts_app, upserts_cons, stored_at_upserts_other by exact Hlast.
    apply stored_at_upsert_same. }
  destruct Hstored as (f & Hf & Hkey & Hmeasures).
  apply find_some in Hf as [Hin _].
  unfold get_forecast.
  change (User_query_first current_user (with_forecasts fs' db))
    with (User_query_first current_user db).
  rewrite Huser.
  change (Plant_query_first (User.id user) plant_name (with_forecasts fs' db))
    with (Plant_query_first (User.id user) plant_name db).
  rewrite Hplant. cbv zeta. eexists. split; [reflexivity|].
  assert (Hitem : forecast_item datetime_isoformat r
                  = forecast_item datetime_isoformat f).
  { destruct f, r. unfold key, measures in *. cbn in *.
    injection Hkey as _ ->. injection Hmeasures as -> -> -> -> ->.
    reflexivity. }
  rewrite Hitem. apply in_map, in_order_by, filter_In.
  split; [exact Hin|].
  apply Z.eqb_eq. rewrite <- Hid. unfold key in Hkey. congruence.
Qed.

(** X14. Today's estimate is served first: if the plants of the
    directory have distinct primary keys and every ledger row of a plant
    is dated before today, then after the estimation pass the
    performance endpoint, asked by the plant's owner, answers 200 with
    today's estimate as its first item. *)
Theorem todays_estimate_is_served_first net today db
    current_user plant_name user plant :
  User_query_first current_user db = Some user ->
  Plant_query_first (User.id user) plant_name db = Some plant ->
  NoDup (map Plant.id (plants db)) ->
  (forall p, In p (performances db) ->
             PlantPerformance.plant_id p = Plant.id plant ->
             PlantPerformance.date p < today) ->
  exists older,
    get_performance date_isoformat current_user plant_name
      (snd (run net (calculate_plant_performance today) db))
    = PerformanceData 200
        (PerformanceItem.mk
           (date_isoformat today)
           (total_energy plant (day_forecasts plant today (forecasts db)))
         :: older).
Proof.
  intros Huser Hplant Hnodup Hbefore.
  rewrite run_calculate_plant_performance. cbn [snd].
  unfold get_performance.
  match goal with
  | |- context [User_query_first current_user ?d] =>
      change (User_query_first current_user d)
        with (User_query_first current_user db)
  end.
  rewrite Huser.
  match goal with
  | |- context [Plant_query_first (User.id user) plant_name ?d] =>
      change (Plant_query_first (User.id user) plant_name d)
        with (Plant_query_first (User.id user) plant_name db)
  end.
  rewrite Hplant. cbv zeta. cbn [performances with_performances].
  rewrite filter_app.
  destruct (Plant_query_first_some _ _ _ _ Hplant) as (Hin & _ & _).
  destruct (new_records_of_plant today (forecasts db) plant (plants db)
              (map PlantPerformance.id (performances db)) Hnodup Hin)
    as [i ->].
  rewrite order_by_latest_last.
  - cbn [firstn map performance_item PlantPerformance.date
         PlantPerformance.expected_output]. eexists. reflexivity.
  - intros a Ha. apply filter_In in Ha as [Ha Hid]. apply Z.eqb_eq in Hid.
    unfold descending. cbn [PlantPerformance.date]. apply Z.leb_gt.
    now apply Hbefore.
Qed.

End PipelineCoverage.

(** ** What a pass leaves to the estimate, and what it asks of the network *)

Lemma filter_update_first_other {A} (keep p : A -> bool) (g : A -> A)
    (l : list A) :
  (forall x, p x = true -> keep x = false) ->
  (forall x, keep (g x) = keep x) ->
  filter keep (update_first p g l) = filter keep l.
Proof.
  intros Hp Hg. induction l as [|x l IH]; simpl; [reflexivity|].
  destruct (p x) eqn:Hx; simpl.
  - now rewrite Hg, (Hp x Hx).
  - now rewrite IH.
Qed.

Lemma day_forecasts_upsert plant today r fs :
  (Forecast.plant_id r = Plant.id plant ->
   in_day today (Forecast.timestamp r) = false) ->
  day_forecasts plant today (upsert r fs) = day_forecasts plant today fs.
Proof.
  intro Hr.
  assert (Hout : forall x, key x = key r ->
            (Forecast.plant_id x =? Plant.id plant)
            && in_day today (Forecast.timestamp x) = false).
  { intros x Hx. unfold key in Hx. injection Hx as Hp Ht. rewrite Hp, Ht.
    destruct (Forecast.plant_id r =? Plant.id plant) eqn:Hid; [|reflexivity].
    apply Z.eqb_eq in Hid. now rewrite (Hr Hid). }
  unfold day_forecasts. rewrite upsert_cases.
  destruct (present (key r) fs).
  - unfold refresh. apply filter_update_first_other.
    + intros x Hx. apply has_key_true in Hx. now apply Hout.
    + reflexivity.
  - rewrite filter_app. cbn [filter].
    rewrite (Hout (with_id (next_id (map Forecast.id fs)) r) eq_refl).
    apply app_nil_r.
Qed.

Lemma day_forecasts_upserts plant today rows : forall fs,
  (forall r, In r rows -> Forecast.plant_id r = Plant.id plant ->
             in_day today (Forecast.timestamp r) = false) ->
  day_forecasts plant today (upserts rows fs) = day_forecasts plant today fs.
Proof.
  induction rows as [|r rows IH]; intros fs Hrows; [reflexivity|].
  rewrite upserts_cons, IH by (intros x Hx; apply Hrows; now right).
  apply day_forecasts_upsert. apply Hrows. now left.
Qed.

Section NetworkCoverage.

Variable fromisoformat : string -> option datetime.

(** X15. Points of other plants and of other days never change a
    plant's estimate: if no point of a committed reconcile pass is both
    of the plant and in the window of [today], the rows the estimation
    query returns for the plant and [today] are the same after the pass
    as before, and so is the value the estimation pass writes. *)
Theorem estimate_ignores_other_days_and_plants net db rows plant today :
  pass_rows fromisoformat (exchanges net (plants db)) = Some rows ->
  (forall r, In r rows -> Forecast.plant_id r = Plant.id plant ->
             in_day today (Forecast.timestamp r) = false) ->
  day_forecasts plant today
    (forecasts (snd (run net (update_forecast_data fromisoformat) db)))
  = day_forecasts plant today (forecasts db)
  /\ expected_entry today
       (forecasts (snd (run net (update_forecast_data fromisoformat) db)))
       plant
     = expected_entry today (forecasts db) plant.
Proof.
  intros Hrows Hother.
  pose proof (run_update_forecast_data fromisoformat net db) as Hrun.
  rewrite Hrows in Hrun. destruct Hrun as [-> _].
  cbn [snd forecasts with_forecasts]. unfold expected_entry.
  now rewrite day_forecasts_upserts.
Qed.

Lemma network_after_reconcile_plant plant w w' :
  reconcile_plant fromisoformat plant w = (Ok tt, w') ->
  forall k, network w' k = network w (S k).
Proof.
  intros Hrun k.
  pose proof (reconcile_plant_cases fromisoformat plant w) as Hcases.
  destruct (classify fromisoformat plant (network w 0%nat)).
  - rewrite Hcases in Hrun. injection Hrun as <-. reflexivity.
  - rewrite Hcases in Hrun. injection Hrun as <-. reflexivity.
  - destruct Hcases as (e & w'' & Hraise & _). congruence.
Qed.

Lemma network_after_reconcile_plants directory : forall w w',
  for_each (reconcile_plant fromisoformat) directory w = (Ok tt, w') ->
  forall k, network w' k = network w (List.length directory + k)%nat.
Proof.
  induction directory as [|plant rest IH]; intros w w' Hrun k.
  - injection Hrun as <-. reflexivity.
  - cbn [for_each] in Hrun. unfold bind in Hrun.
    destruct (reconcile_plant fromisoformat plant w) as [[[]|e] w1] eqn:Hplant;
      [|discriminate].
    rewrite (IH w1 w' Hrun k).
    rewrite (network_after_reconcile_plant plant w w1 Hplant).
    reflexivity.
Qed.

(** X16. A reconcile pass that completes has made exactly one request
    per plant of the directory, no more: the outcomes left on the
    network are those that come after the first [n], where [n] is the
    number of plants. *)
Theorem one_request_per_plant net db :
  fst (run net (update_forecast_data fromisoformat) db) = Ok tt ->
  forall k,
    requests_left net (update_forecast_data fromisoformat) db k
    = net (List.length (plants db) + k)%nat.
Proof.
  unfold run, requests_left, update_forecast_data. cbn [fst].
  rewrite (bind_ok _ _ _ _ _ (eq_refl : Plant_query_all (start net db) = _)).
  unfold bind at 1 2.
  destruct (for_each (reconcile_plant fromisoformat) (plants (session (start net db)))
              (start net db)) as [[[]|e] w'] eqn:Hloop; [|discriminate].
  intros _ k. unfold db_session_commit. cbn [snd network].
  now rewrite (network_after_reconcile_plants _ _ _ Hloop k).
Qed.

End NetworkCoverage.

(** ** The further properties at concrete inputs *)

Lemma reconciled_point_is_stored_witness :
  pass_rows demo_fromisoformat (exchanges net_duplicates (plants two_plant_db))
  = Some ([decoded_0030 1]
          ++ decoded_0030_revised 1
             :: [decoded_0030 2; decoded_0030_revised 2])
  /\ present (key (decoded_0030_revised 1))
             [decoded_0030 2; decoded_0030_revised 2] = false
  /\ exists f,
       stored_at (key (decoded_0030_revised 1))
         (forecasts (snd (run net_duplicates
                              (update_forecast_data demo_fromisoformat)
                              two_plant_db)))
       = Some f
       /\ key f = key (decoded_0030_revised 1)
       /\ measures f = measures (decoded_0030_revised 1).
Proof.
  assert (Hrows : pass_rows demo_fromisoformat
                    (exchanges net_duplicates (plants two_plant_db))
                  = Some ([decoded_0030 1]
                          ++ decoded_0030_revised 1
                             :: [decoded_0030 2; decoded_0030_revised 2]))
    by reflexivity.
  assert (Hlast : present (key (decoded_0030_revised 1))
                          [decoded_0030 2; decoded_0030_revised 2] = false)
    by reflexivity.
  split; [exact Hrows|]. split; [exact Hlast|].
  exact (reconciled_point_is_stored demo_fromisoformat net_duplicates
           two_plant_db _ _ _ Hrows Hlast).
Defined.

Lemma unmentioned_rows_are_untouched_witness :
  pass_rows demo_fromisoformat (exchanges net_first_500 (plants stocked_db))
  = Some [decoded_0030 2]
  /\ In scenario_point (forecasts stocked_db)
  /\ present (key scenario_point) [decoded_0030 2] = false
  /\ In scenario_point
        (forecasts (snd (run net_first_500
                             (update_forecast_data demo_fromisoformat)
                             stocked_db))).
Proof.
  assert (Hrows : pass_rows demo_fromisoformat
                    (exchanges net_first_500 (plants stocked_db))
                  = Some [decoded_0030 2]) by reflexivity.
  assert (Hin : In scenario_point (forecasts stocked_db)) by (left; reflexivity).
  assert (Hkey : present (key scenario_point) [decoded_0030 2] = false)
    by reflexivity.
  split; [exact Hrows|]. split; [exact Hin|]. split; [exact Hkey|].
  exact (unmentioned_rows_are_untouched demo_fromisoformat net_first_500
           stocked_db _ _ Hrows Hin Hkey).
Defined.

Lemma update_path_assigns_before_it_fails_witness :
  Point.period_end point_without_dni = Some "2022-01-08T00:30:00"
  /\ demo_fromisoformat "2022-01-08T00:30:00"
     = Some (midnight 19000 + 1800000000)
  /\ find_index (same_key (Plant.id scenario_plant)
                          (midnight 19000 + 1800000000))
                (forecasts (session (start net_duplicates scenario_db)))
     = Some 0%nat
  /\ Point.ghi point_without_dni = Some 480%R
  /\ Point.dni point_without_dni = None
  /\ (reconcile_point demo_fromisoformat scenario_plant point_without_dni
        (start net_duplicates scenario_db)
      = (Raise (KeyError "dni"),
         set_forecasts
           (modify_nth 0 (Forecast.set_ghi 480%R)
              (forecasts (session (start net_duplicates scenario_db))))
           (start net_duplicates scenario_db))
      /\ committed (snd (reconcile_point demo_fromisoformat scenario_plant
                           point_without_dni
                           (start net_duplicates scenario_db)))
         = committed (start net_duplicates scenario_db)).
Proof.
  do 5 (split; [reflexivity|]).
  exact (update_path_assigns_before_it_fails demo_fromisoformat scenario_plant
           point_without_dni (start net_duplicates scenario_db)
           "2022-01-08T00:30:00" (midnight 19000 + 1800000000) 0%nat 480%R
           eq_refl eq_refl eq_refl eq_refl eq_refl).
Defined.

Lemma forecasts_served_complete_and_sorted_witness :
  get_forecast demo_datetime_isoformat "bob" "alpha" busy_db
  = ForecastData 200
      (map (forecast_item demo_datetime_isoformat)
         [Forecast.mk 2 1 (midnight 19000 + 1800000000)
                      500%R 600%R 100%R 25%R 10%R;
          Forecast.mk 1 1 (midnight 19000 + 3600000000)
                      510%R 610%R 90%R 25%R 10%R;
          Forecast.mk 3 1 (midnight 19001) 0%R 0%R 0%R 20%R 0%R])
  /\ (200 = 200
      /\ exists user plant rows,
           User_query_first "bob" busy_db = Some user
           /\ Plant_query_first (User.id user) "alpha" busy_db = Some plant
           /\ map (forecast_item demo_datetime_isoformat)
                [Forecast.mk 2 1 (midnight 19000 + 1800000000)
                             500%R 600%R 100%R 25%R 10%R;
                 Forecast.mk 1 1 (midnight 19000 + 3600000000)
                             510%R 610%R 90%R 25%R 10%R;
                 Forecast.mk 3 1 (midnight 19001) 0%R 0%R 0%R 20%R 0%R]
              = map (forecast_item demo_datetime_isoformat) rows
           /\ Permutation rows
                (filter (fun f => Forecast.plant_id f =? Plant.id plant)
                        (forecasts busy_db))
           /\ StronglySorted by_timestamp rows).
Proof.
  split; [reflexivity|].
  exact (forecasts_served_complete_and_sorted demo_datetime_isoformat
           "bob" "alpha" busy_db 200 _ eq_refl).
Defined.

Lemma performance_served_latest_thirty_witness :
  get_performance demo_date_isoformat "bob" "alpha" busy_db
  = PerformanceData 200
      (map (performance_item demo_date_isoformat)
           (firstn 30 (rev (performances busy_db))))
  /\ (200 = 200
      /\ exists user plant shown omitted,
           User_query_first "bob" busy_db = Some user
           /\ Plant_query_first (User.id user) "alpha" busy_db = Some plant
           /\ map (performance_item demo_date_isoformat)
                  (firstn 30 (rev (performances busy_db)))
              = map (performance_item demo_date_isoformat) shown
           /\ Permutation (shown ++ omitted)
                (filter (fun p => PlantPerformance.plant_id p =? Plant.id plant)
                        (performances busy_db))
           /\ List.length shown = Nat.min 30 (List.length (shown ++ omitted))
           /\ StronglySorted latest_first shown
           /\ forall a b, In a shown -> In b omitted -> latest_first a b).
Proof.
  split; [reflexivity|].
  exact (performance_served_latest_thirty demo_date_isoformat
           "bob" "alpha" busy_db 200 _ eq_refl).
Defined.

Lemma granted_identity_is_served_witness :
  login string plain_token (Credentials.mk (Some "bob") (Some "secret")) busy_db
  = AccessToken 200 (plain_token "bob")
  /\ exists u,
       Credentials.username (Credentials.mk (Some "bob") (Some "secret"))
       = Some u
       /\ plain_token "bob" = plain_token u
       /\ forall nets net today plant_name,
            let db' :=
              snd (run net (calculate_plant_performance today)
                       (reconcile_calls demo_fromisoformat nets busy_db)) in
            get_forecast demo_datetime_isoformat u plant_name db'
            <> Message 404 "User not found"
            /\ get_performance demo_date_isoformat u plant_name db'
               <> Message 404 "User not found".
Proof.
  split; [reflexivity|].
  exact (granted_identity_is_served string plain_token demo_fromisoformat
           demo_datetime_isoformat demo_date_isoformat
           (Credentials.mk (Some "bob") (Some "secret")) busy_db 200
           (plain_token "bob") eq_refl).
Defined.

Lemma reconciled_point_is_served_witness :
  pass_rows demo_fromisoformat (exchanges net_duplicates (plants two_plant_db))
  = Some ([decoded_0030 1]
          ++ decoded_0030_revised 1
             :: [decoded_0030 2; decoded_0030_revised 2])
  /\ present (key (decoded_0030_revised 1))
             [decoded_0030 2; decoded_0030_revised 2] = false
  /\ User_query_first "ann" two_plant_db = Some (User.mk 1 "ann" "pw")
  /\ Plant_query_first 1 "alpha" two_plant_db = Some scenario_plant
  /\ Forecast.plant_id (decoded_0030_revised 1) = Plant.id scenario_plant
  /\ exists items,
       get_forecast demo_datetime_isoformat "ann" "alpha"
         (snd (run net_duplicates (update_forecast_data demo_fromisoformat)
                   two_plant_db))
       = ForecastData 200 items
       /\ In (forecast_item demo_datetime_isoformat (decoded_0030_revised 1))
             items.
Proof.
  repeat (split; [reflexivity|]).
  exact (reconciled_point_is_served demo_fromisoformat demo_datetime_isoformat
           net_duplicates two_plant_db [decoded_0030 1]
           (decoded_0030_revised 1)
           [decoded_0030 2; decoded_0030_revised 2]
           "ann" "alpha" (User.mk 1 "ann" "pw") scenario_plant
           eq_refl eq_refl eq_refl eq_refl eq_refl).
Defined.

Lemma todays_estimate_is_served_first_witness :
  User_query_first "bob" busy_db = Some (User.mk 2 "bob" "secret")
  /\ Plant_query_first 2 "alpha" busy_db
     = Some (Plant.mk 1 "alpha" 2 6.9%R 79.8%R 5%R 10%R 30%R 180%R)
  /\ NoDup (map Plant.id (plants busy_db))
  /\ (forall p, In p (performances busy_db) ->
                PlantPerformance.plant_id p = 1 ->
                PlantPerformance.date p < 19001)
  /\ exists older,
       get_performance demo_date_isoformat "bob" "alpha"
         (snd (run net_duplicates (calculate_plant_performance 19001) busy_db))
       = PerformanceData 200
           (PerformanceItem.mk
              (demo_date_isoformat 19001)
              (total_energy
                 (Plant.mk 1 "alpha" 2 6.9%R 79.8%R 5%R 10%R 30%R 180%R)
                 (day_forecasts
                    (Plant.mk 1 "alpha" 2 6.9%R 79.8%R 5%R 10%R 30%R 180%R)
                    19001 (forecasts busy_db)))
            :: older).
Proof.
  assert (Hnodup : NoDup (map Plant.id (plants busy_db))).
  { constructor; [intros []|constructor]. }
  assert (Hbefore : forall p, In p (performances busy_db) ->
                PlantPerformance.plant_id p = 1 ->
                PlantPerformance.date p < 19001).
  { intros p Hp _. unfold busy_db in Hp. cbn [performances] in Hp.
    apply in_map_iff in Hp as (d & <- & Hd).
    apply in_map_iff in Hd as (n & <- & Hn). apply in_seq in Hn.
    cbn [PlantPerformance.date]. lia. }
  split; [reflexivity|]. split; [reflexivity|].
  split; [exact Hnodup|]. split; [exact Hbefore|].
  exact (todays_estimate_is_served_first demo_date_isoformat net_duplicates
           19001 busy_db "bob" "alpha" (User.mk 2 "bob" "secret")
           (Plant.mk 1 "alpha" 2 6.9%R 79.8%R 5%R 10%R 30%R 180%R)
           eq_refl eq_refl Hnodup Hbefore).
Defined.

Lemma estimate_ignores_other_days_and_plants_witness :
  pass_rows demo_fromisoformat_two_days
            (exchanges net_next_day (plants stocked_db))
  = Some [Forecast.mk 0 1 (midnight 19001) 1%R 2%R 3%R 4%R 5%R; decoded_0030 2]
  /\ (forall r,
        In r [Forecast.mk 0 1 (midnight 19001) 1%R 2%R 3%R 4%R 5%R;
              decoded_0030 2] ->
        Forecast.plant_id r = Plant.id scenario_plant ->
        in_day 19000 (Forecast.timestamp r) = false)
  /\ (day_forecasts scenario_plant 19000
        (forecasts (snd (run net_next_day
                             (update_forecast_data demo_fromisoformat_two_days)
                             stocked_db)))
      = day_forecasts scenario_plant 19000 (forecasts stocked_db)
      /\ expected_entry 19000
           (forecasts (snd (run net_next_day
                                (update_forecast_data
                                   demo_fromisoformat_two_days)
                                stocked_db)))
           scenario_plant
         = expected_entry 19000 (forecasts stocked_db) scenario_plant).
Proof.
  assert (Hrows : pass_rows demo_fromisoformat_two_days
                    (exchanges net_next_day (plants stocked_db))
                  = Some [Forecast.mk 0 1 (midnight 19001) 1%R 2%R 3%R 4%R 5%R;
                          decoded_0030 2]) by reflexivity.
  assert (Hother : forall r,
            In r [Forecast.mk 0 1 (midnight 19001) 1%R 2%R 3%R 4%R 5%R;
                  decoded_0030 2] ->
            Forecast.plant_id r = Plant.id scenario_plant ->
            in_day 19000 (Forecast.timestamp r) = false).
  { intros r [<-|[<-|[]]] Hid; [reflexivity|discriminate Hid]. }
  split; [exact Hrows|]. split; [exact Hother|].
  exact (estimate_ignores_other_days_and_plants demo_fromisoformat_two_days
           net_next_day stocked_db _ scenario_plant 19000 Hrows Hother).
Defined.

Lemma one_request_per_plant_witness :
  fst (run net_first_500 (update_forecast_data demo_fromisoformat) two_plant_db)
  = Ok tt
  /\ forall k,
       requests_left net_first_500 (update_forecast_data demo_fromisoformat)
                     two_plant_db k
       = net_first_500 (List.length (plants two_plant_db) + k)%nat.
Proof.
  split; [reflexivity|].
  exact (one_request_per_plant demo_fromisoformat net_first_500 two_plant_db
           eq_refl).
Defined.
